(** * InnerBlocks: nested block lists of the block editor

    A shallow embedding of
    [packages/block-editor/src/components/inner-blocks/index.js]:
    the components [UncontrolledInnerBlocks], [ControlledInnerBlocks],
    [ForwardedInnerBlocks], [Uncontrolled], [InnerBlocks] and the hook
    [useInnerBlocksProps].

    JavaScript values are a small inductive type, props objects are
    insertion-ordered association lists, a render is a computation that
    reads its surroundings (store selectors, block type registry, block
    edit context, viewport), records the hooks it calls in call order and
    either returns an element or throws.  The effects behind the hooks
    [useNestedSettingsUpdate] and [useInnerBlockTemplateSync], and the
    context resolver [getBlockContext], live in files of their own; they
    are modelled from the specification and act on an explicit store. *)

From stdpp Require Import gmap strings list fin_maps pretty.

#[local] Set Warnings "-register-all".

Open Scope string_scope.
Open Scope list_scope.

(** ** JavaScript values *)

(** The component types an element can name.  [BlockList],
    [BlockListItems] and [BlockContextProvider] are imported by the source
    file; [HostDiv] is the host element [div]. *)
Inductive Component :=
  | BlockList
  | BlockListItems
  | BlockContextProvider
  | HostDiv
  | ControlledInnerBlocksC
  | UncontrolledInnerBlocksC
  | UncontrolledC
  | InnerBlocksC.

#[global] Instance Component_eq_dec : EqDecision Component.
Proof. solve_decision. Defined.

(** Numbers are restricted to integers; functions and ref objects are
    opaque identities.  [JElem c props children] is the element
    [<c {...props}>children</c>]. *)
Inductive JSValue :=
  | JUndefined
  | JNull
  | JBool (b : bool)
  | JNum (z : Z)
  | JStr (s : string)
  | JArr (items : list JSValue)
  | JObj (fields : list (string * JSValue))
  | JFun (id : nat)
  | JRef (id : nat)
  | JElem (type : Component) (props : list (string * JSValue))
          (children : list JSValue).

Abbreviation JSObject := (list (string * JSValue)).

(** ToBoolean. *)
Definition truthy (v : JSValue) : bool :=
  match v with
  | JUndefined | JNull => false
  | JBool b => b
  | JNum z => negb (Z.eqb z 0)
  | JStr s => negb (String.eqb s "")
  | _ => true
  end.

(** [a || b] and [a && b] on values. *)
Definition js_or (a b : JSValue) : JSValue := if truthy a then a else b.
Definition js_and (a b : JSValue) : JSValue := if truthy a then b else a.

(** ** Objects *)

(** [o.k]: the value of an own field, [undefined] when there is none. *)
Fixpoint obj_lookup (k : string) (o : JSObject) : option JSValue :=
  match o with
  | [] => None
  | (k', v) :: rest => if String.eqb k' k then Some v else obj_lookup k rest
  end.

Definition obj_get (o : JSObject) (k : string) : JSValue :=
  match obj_lookup k o with
  | Some v => v
  | None => JUndefined
  end.

(** [k in o]. *)
Definition obj_has (o : JSObject) (k : string) : bool :=
  match obj_lookup k o with
  | Some _ => true
  | None => false
  end.

(** [o[k] = v]: an existing field keeps its place, a new one goes last. *)
Fixpoint obj_set (k : string) (v : JSValue) (o : JSObject) : JSObject :=
  match o with
  | [] => [(k, v)]
  | (k', v') :: rest =>
      if String.eqb k' k then (k, v) :: rest else (k', v') :: obj_set k v rest
  end.

(** [{ ...base, ...src }]. *)
Definition obj_spread (base src : JSObject) : JSObject :=
  fold_left (fun acc kv => obj_set (fst kv) (snd kv) acc) src base.

Definition obj_keys (o : JSObject) : list string := map fst o.

(** ** The [classnames] package *)

(** [Array.prototype.join]. *)
Fixpoint join (sep : string) (parts : list string) : string :=
  match parts with
  | [] => ""
  | [s] => s
  | s :: rest => s +:+ sep +:+ join sep rest
  end.

(** The own enumerable keys of an object argument whose value is truthy. *)
Definition truthy_keys (o : JSObject) : list string :=
  map fst (List.filter (fun kv => truthy (snd kv)) o).

(** The external package [classnames] (version 2.2): falsy arguments are
    skipped, strings and numbers are taken as they are, a non-empty array
    contributes its own joined result when that is not empty, an object
    contributes its keys with a truthy value; everything is joined by a
    space.  [classes_of] is the [classes] array one argument contributes.
    Functions are skipped by the package; refs and elements are no class
    name arguments and contribute nothing here. *)
Fixpoint classes_of (arg : JSValue) : list string :=
  if truthy arg then
    match arg with
    | JStr s => [s]
    | JNum z => [pretty z]
    | JArr items =>
        let inner :=
          join " " ((fix all (l : list JSValue) : list string :=
                       match l with
                       | [] => []
                       | x :: rest => classes_of x ++ all rest
                       end) items) in
        if String.eqb inner "" then [] else [inner]
    | JObj fields => truthy_keys fields
    | _ => []
    end
  else [].

Definition classnames (args : list JSValue) : string :=
  join " " (flat_map classes_of args).

(** ** Collaborators read during a render *)

(** A block as [getBlock] returns it; the source reads [name] and
    [attributes] only. *)
Record Block := {
  name : string;
  attributes : JSObject;
}.

(** A block type descriptor; [providesContext] is a mapping from attribute
    names to context keys, or absent. *)
Record BlockType := {
  providesContext : option (list (string * string));
}.

(** [select( 'core/block-editor' )]: the selectors the source calls.  A
    block the store does not have is [None]. *)
Record Selectors := {
  getBlock : JSValue -> option Block;
  getBlockName : JSValue -> option string;
  isBlockSelected : JSValue -> bool;
  hasSelectedInnerBlock : JSValue -> bool -> bool;
  isNavigationMode : bool;
}.

(** What a component instance finds around it: the store, the block type
    registry behind [getBlockType], the client id of the block edit
    context, whether the viewport is below the medium breakpoint
    ([useViewportMatch( 'medium', '<' )]) and the ref object its [useRef]
    call owns. *)
Record Env := {
  select : Selectors;
  registry : gmap string BlockType;
  contextClientId : string;
  isSmallScreen : bool;
  fallbackRef : nat;
}.

Definition getBlockType (env : Env) (n : string) : option BlockType :=
  registry env !! n.

(** ** Renders *)

(** The side-effect hooks of the file, as called: name and arguments. *)
Inductive HookCall :=
  | BlockSyncCall (props : JSObject)
  | NestedSettingsUpdateCall
      (clientId allowedBlocks templateLock captureToolbars orientation : JSValue)
  | InnerBlockTemplateSyncCall
      (clientId template templateLock templateInsertUpdatesSelection : JSValue).

Inductive Exn :=
  | TypeError (message : string).

Inductive Outcome (A : Type) :=
  | Returned (a : A)
  | Thrown (e : Exn).
Arguments Returned {A} a.
Arguments Thrown {A} e.

(** A render reads the environment, appends to the hooks called so far
    and returns or throws. *)
Definition Render (A : Type) : Type :=
  Env -> list HookCall -> list HookCall * Outcome A.

Definition ret {A} (a : A) : Render A := fun _ log => (log, Returned a).

Definition bind {A B} (m : Render A) (k : A -> Render B) : Render B :=
  fun env log =>
    match m env log with
    | (log', Returned a) => k a env log'
    | (log', Thrown e) => (log', Thrown e)
    end.

Definition throw {A} (e : Exn) : Render A := fun _ log => (log, Thrown e).
Definition ask : Render Env := fun env log => (log, Returned env).
Definition call (h : HookCall) : Render unit :=
  fun _ log => (log ++ [h], Returned tt).

Notation "'let*' x ':=' m 'in' k" := (bind m (fun x => k))
  (at level 10, x name, m at level 100, k at level 200).
Notation "m ';;' k" := (bind m (fun _ => k))
  (at level 100, k at level 200, right associativity).

(** A first render of a component instance: no hook has been called. *)
Definition run {A} (m : Render A) (env : Env) : list HookCall * Outcome A :=
  m env [].

Definition result {A} (m : Render A) (env : Env) : Outcome A := snd (run m env).
Definition hooks {A} (m : Render A) (env : Env) : list HookCall := fst (run m env).

(** The hooks the source imports. *)
Definition useBlockEditContext : Render JSValue :=
  let* env := ask in ret (JStr (contextClientId env)).
Definition useRef : Render JSValue :=
  let* env := ask in ret (JRef (fallbackRef env)).
Definition useViewportMatch_medium_lt : Render bool :=
  let* env := ask in ret (isSmallScreen env).
Definition useSelect {A} (mapSelect : Selectors -> Render A) : Render A :=
  let* env := ask in mapSelect (select env).
Definition useBlockSync (props : JSObject) : Render unit :=
  call (BlockSyncCall props).
Definition useNestedSettingsUpdate
    (clientId allowedBlocks templateLock captureToolbars orientation : JSValue)
    : Render unit :=
  call (NestedSettingsUpdateCall clientId allowedBlocks templateLock
          captureToolbars orientation).
Definition useInnerBlockTemplateSync
    (clientId template templateLock templateInsertUpdatesSelection : JSValue)
    : Render unit :=
  call (InnerBlockTemplateSyncCall clientId template templateLock
          templateInsertUpdatesSelection).

(** ** The context resolver *)

(** Modelled from the spec: [getBlockContext] is imported from
    [./get-block-context], which is not part of the sources at hand.  The
    context bag has, for each (attribute name, context key) pair the
    descriptor declares, an entry from the context key to the current
    value of the attribute; it is empty when no mapping is declared. *)
Definition getBlockContext (attrs : JSObject) (blockType : BlockType)
    : JSObject :=
  match providesContext blockType with
  | None => []
  | Some mapping =>
      fold_left
        (fun bag pair => obj_set (snd pair) (obj_get attrs (fst pair)) bag)
        mapping []
  end.

(** The bag after the declared pairs [mapping] were added to [bag]. *)
Abbreviation addPairs attrs mapping bag :=
  (fold_left
     (fun bag (pair : string * string) =>
        obj_set (snd pair) (obj_get attrs (fst pair)) bag)
     mapping bag).

(** ** The components *)

(** What the [useSelect] call of [UncontrolledInnerBlocks] returns. *)
Record OverlaySelection := {
  block : Block;
  hasOverlay : bool;
  enableClickThrough : bool;
}.

(** The callback [UncontrolledInnerBlocks] hands to [useSelect];
    [theBlock.name] throws when the store has no block for the id. *)
Definition selectOverlay (clientId : JSValue) (isSmallScreen : bool)
    (sel : Selectors) : Render OverlaySelection :=
  match getBlock sel clientId with
  | None => throw (TypeError "cannot read property 'name' of theBlock")
  | Some theBlock =>
      ret {| block := theBlock;
             hasOverlay :=
               negb (String.eqb (name theBlock) "core/template")
               && negb (isBlockSelected sel clientId)
               && negb (hasSelectedInnerBlock sel clientId true);
             enableClickThrough := isNavigationMode sel || isSmallScreen |}
  end.

Definition UncontrolledInnerBlocks (props : JSObject) : Render JSValue :=
  let clientId := obj_get props "clientId" in
  let allowedBlocks := obj_get props "allowedBlocks" in
  let template := obj_get props "template" in
  let templateLock := obj_get props "templateLock" in
  let forwardedRef := obj_get props "forwardedRef" in
  let templateInsertUpdatesSelection :=
    obj_get props "templateInsertUpdatesSelection" in
  let captureToolbars := obj_get props "__experimentalCaptureToolbars" in
  let orientation := obj_get props "orientation" in
  let* isSmallScreen := useViewportMatch_medium_lt in
  let* selection := useSelect (selectOverlay clientId isSmallScreen) in
  useNestedSettingsUpdate clientId allowedBlocks templateLock captureToolbars
    orientation;;
  useInnerBlockTemplateSync clientId template templateLock
    templateInsertUpdatesSelection;;
  let classes := classnames
    [JObj [("has-overlay",
            JBool (enableClickThrough selection && hasOverlay selection));
           ("is-capturing-toolbar", captureToolbars)]] in
  let blockList :=
    JElem BlockList
      (obj_set "className" (JStr classes)
         (obj_set "rootClientId" clientId
            (obj_set "ref" forwardedRef props))) [] in
  let* env := ask in
  let blockList :=
    match getBlockType env (name (block selection)) with
    | Some blockType =>
        match providesContext blockType with
        | Some _ =>
            let context :=
              getBlockContext (attributes (block selection)) blockType in
            JElem BlockContextProvider [("value", JObj context)] [blockList]
        | None => blockList
        end
    | None => blockList
    end in
  if truthy (obj_get props "__experimentalTagName") then ret blockList
  else ret (JElem HostDiv [("className", JStr "block-editor-inner-blocks")]
              [blockList]).

Definition ControlledInnerBlocks (props : JSObject) : Render JSValue :=
  useBlockSync props;;
  ret (JElem UncontrolledInnerBlocksC props []).

Definition ForwardedInnerBlocks (props : JSObject) (ref : JSValue)
    : Render JSValue :=
  let* clientId := useBlockEditContext in
  let* fallbackRef := useRef in
  let allProps :=
    obj_spread
      [("clientId", clientId); ("forwardedRef", js_or ref fallbackRef)]
      props in
  if truthy (js_and (obj_get props "value") (obj_get props "onChange"))
  then ret (JElem ControlledInnerBlocksC allProps [])
  else ret (JElem UncontrolledInnerBlocksC allProps []).

Definition Uncontrolled (props : JSObject) : Render JSValue :=
  let clientId := obj_get props "clientId" in
  let allowedBlocks := obj_get props "allowedBlocks" in
  let template := obj_get props "template" in
  let templateLock := obj_get props "templateLock" in
  let wrapperRef := obj_get props "wrapperRef" in
  let templateInsertUpdatesSelection :=
    obj_get props "templateInsertUpdatesSelection" in
  let captureToolbars := obj_get props "__experimentalCaptureToolbars" in
  let __experimentalAppenderTagName :=
    obj_get props "__experimentalAppenderTagName" in
  let renderAppender := obj_get props "renderAppender" in
  let orientation := obj_get props "orientation" in
  useNestedSettingsUpdate clientId allowedBlocks templateLock captureToolbars
    orientation;;
  useInnerBlockTemplateSync clientId template templateLock
    templateInsertUpdatesSelection;;
  let blockListItems :=
    JElem BlockListItems
      [("rootClientId", clientId);
       ("renderAppender", renderAppender);
       ("__experimentalAppenderTagName", __experimentalAppenderTagName);
       ("wrapperRef", wrapperRef)] [] in
  let* found := useSelect (fun sel => ret (getBlock sel clientId)) in
  match found with
  | None => ret blockListItems
  | Some theBlock =>
      let* env := ask in
      match getBlockType env (name theBlock) with
      | None => ret blockListItems
      | Some blockType =>
          match providesContext blockType with
          | None => ret blockListItems
          | Some _ =>
              let context := getBlockContext (attributes theBlock) blockType in
              ret (JElem BlockContextProvider [("value", JObj context)]
                     [blockListItems])
          end
      end
  end.

Definition InnerBlocks (props : JSObject) : Render JSValue :=
  let* clientId := useBlockEditContext in
  let Component :=
    if truthy (js_and (obj_get props "value") (obj_get props "onChange"))
    then ControlledInnerBlocksC else UncontrolledC in
  ret (JElem Component (obj_set "clientId" clientId props) []).

(** The callback [useInnerBlocksProps] hands to [useSelect]; [getBlockName]
    gives no name for a block the store does not have, and no name differs
    from ['core/template']. *)
Definition selectHasOverlay (clientId : JSValue) (isSmallScreen : bool)
    (sel : Selectors) : Render bool :=
  ret (negb (bool_decide (getBlockName sel clientId = Some "core/template"))
       && negb (isBlockSelected sel clientId)
       && negb (hasSelectedInnerBlock sel clientId true)
       && (isNavigationMode sel || isSmallScreen)).

Definition useInnerBlocksProps (props options : JSObject) : Render JSObject :=
  let* fallbackRef := useRef in
  let* clientId := useBlockEditContext in
  let* isSmallScreen := useViewportMatch_medium_lt in
  let* hasOverlay := useSelect (selectHasOverlay clientId isSmallScreen) in
  let ref := js_or (obj_get props "ref") fallbackRef in
  ret (obj_set "children"
         (JElem InnerBlocksC (obj_set "wrapperRef" ref options) [])
         (obj_set "className"
            (JStr (classnames
                     [obj_get props "className";
                      JStr "block-editor-block-list__layout";
                      JObj [("has-overlay", JBool hasOverlay)]]))
            (obj_set "ref" ref props))).

(** ** Rendering an element *)

(** The function components of this file. *)
Definition component (c : Component) : option (JSObject -> Render JSValue) :=
  match c with
  | ControlledInnerBlocksC => Some ControlledInnerBlocks
  | UncontrolledInnerBlocksC => Some UncontrolledInnerBlocks
  | UncontrolledC => Some Uncontrolled
  | InnerBlocksC => Some InnerBlocks
  | _ => None
  end.

(** The renderer calls a function component with the element's props and
    goes on with the element it returns, [depth] components deep;
    elements of imported components and host elements are left as they
    are. *)
Fixpoint mount (depth : nat) (e : JSValue) : Render JSValue :=
  match e with
  | JElem c props _ =>
      match component c, depth with
      | Some f, S d => let* e' := f props in mount d e'
      | _, _ => ret e
      end
  | _ => ret e
  end.

(** [InnerBlocks] chooses a component that may return
    [UncontrolledInnerBlocks]: three components at most. *)
Definition render (e : JSValue) : Render JSValue := mount 3 e.

(** The default export, rendered with the given props and ref. *)
Definition renderForwardedInnerBlocks (props : JSObject) (ref : JSValue)
    : Render JSValue :=
  let* e := ForwardedInnerBlocks props ref in render e.

(** ** Reading a rendered tree *)

(** The two modes of the nested list, read off the component a selector
    returns: [ControlledInnerBlocks] runs the block synchronisation, the
    two uncontrolled components do not. *)
Inductive Mode :=
  | Controlled
  | UncontrolledMode.

Definition mode_of (e : JSValue) : option Mode :=
  match e with
  | JElem ControlledInnerBlocksC _ _ => Some Controlled
  | JElem UncontrolledInnerBlocksC _ _ => Some UncontrolledMode
  | JElem UncontrolledC _ _ => Some UncontrolledMode
  | _ => None
  end.

(** The mode a render of a mode-selecting component chooses; [None] when
    the render throws or returns something else. *)
Definition selectedMode (m : Render JSValue) (env : Env) : option Mode :=
  match result m env with
  | Returned e => mode_of e
  | Thrown _ => None
  end.

(** Both controlled-mode inputs are given, as the selectors test it:
    [props.value && props.onChange]. *)
Definition controlledInputs (props : JSObject) : bool :=
  truthy (js_and (obj_get props "value") (obj_get props "onChange")).

(** [delete o[k]]: the caller no longer passes the prop. *)
Definition obj_delete (k : string) (o : JSObject) : JSObject :=
  filter (fun kv => fst kv <> k) o.

(** The number of [BlockContextProvider] scopes in a rendered tree. *)
Fixpoint contextScopes (e : JSValue) : nat :=
  match e with
  | JElem c _ children =>
      (match c with BlockContextProvider => 1 | _ => 0 end)
      + (fix sum (l : list JSValue) : nat :=
           match l with
           | [] => 0
           | x :: rest => contextScopes x + sum rest
           end) children
  | _ => 0
  end.

(** The props of the first element of type [c] in a rendered tree, in
    document order. *)
Fixpoint findElement (c : Component) (e : JSValue) : option JSObject :=
  match e with
  | JElem c' props children =>
      if bool_decide (c' = c) then Some props
      else (fix first (l : list JSValue) : option JSObject :=
              match l with
              | [] => None
              | x :: rest =>
                  match findElement c x with
                  | Some p => Some p
                  | None => first rest
                  end
              end) children
  | _ => None
  end.

(** The [className] the nested list is rendered with: that of the
    [BlockList] element. *)
Definition containerClassName (e : JSValue) : JSValue :=
  match findElement BlockList e with
  | Some props => obj_get props "className"
  | None => JUndefined
  end.

(** The list [Uncontrolled] renders. *)
Definition blockListItemsOf (props : JSObject) : JSValue :=
  JElem BlockListItems
    [("rootClientId", obj_get props "clientId");
     ("renderAppender", obj_get props "renderAppender");
     ("__experimentalAppenderTagName",
      obj_get props "__experimentalAppenderTagName");
     ("wrapperRef", obj_get props "wrapperRef")] [].

(** The class names of a [className] value. *)
Definition classList (v : JSValue) : list string :=
  match v with
  | JStr s => String.words s
  | _ => []
  end.

Definition hasClass (c : string) (v : JSValue) : bool :=
  bool_decide (c ∈ classList v).

(** [sub] occurs in [s]. *)
Definition occursIn (sub s : string) : Prop :=
  exists pre post, s = pre +:+ sub +:+ post.

(** ** Equality of values *)

Fixpoint JSValue_eq_dec (a b : JSValue) {struct a} : Decision (a = b).
Proof.
  refine
    (match a, b with
     | JUndefined, JUndefined => left eq_refl
     | JNull, JNull => left eq_refl
     | JBool x, JBool y => cast_if (decide (x = y))
     | JNum x, JNum y => cast_if (decide (x = y))
     | JStr x, JStr y => cast_if (decide (x = y))
     | JArr xs, JArr ys => cast_if (@list_eq_dec _ JSValue_eq_dec xs ys)
     | JObj xs, JObj ys =>
         cast_if (@list_eq_dec _ (@prod_eq_dec _ _ _ JSValue_eq_dec) xs ys)
     | JFun x, JFun y => cast_if (decide (x = y))
     | JRef x, JRef y => cast_if (decide (x = y))
     | JElem c xs cs, JElem c' ys cs' =>
         cast_if_and3 (decide (c = c'))
           (@list_eq_dec _ (@prod_eq_dec _ _ _ JSValue_eq_dec) xs ys)
           (@list_eq_dec _ JSValue_eq_dec cs cs')
     | _, _ => right _
     end); congruence.
Defined.

#[global] Instance JSValue_eq_decision : EqDecision JSValue := JSValue_eq_dec.

(** ** The store the effects act on *)

(** The settings of one nested list. *)
Record Settings := {
  allowedBlocks : JSValue;
  templateLock : JSValue;
  captureToolbars : JSValue;
  orientation : JSValue;
}.

#[global] Instance Settings_eq_dec : EqDecision Settings.
Proof. solve_decision. Defined.

(** A template node: type name, attribute defaults, child template
    nodes. *)
Inductive TemplateNode :=
  | TNode (typeName : string) (defaults : JSObject) (inner : list TemplateNode).

(** A block with its nested list. *)
Inductive BlockNode :=
  | BNode (clientId : string) (typeName : string) (attrs : JSObject)
          (inner : list BlockNode).

Fixpoint TemplateNode_eq_dec (a b : TemplateNode) {struct a}
    : Decision (a = b).
Proof.
  refine
    (match a, b with
     | TNode n d ts, TNode n' d' ts' =>
         cast_if_and3 (decide (n = n')) (decide (d = d'))
           (@list_eq_dec _ TemplateNode_eq_dec ts ts')
     end); congruence.
Defined.

#[global] Instance TemplateNode_eq_decision : EqDecision TemplateNode :=
  TemplateNode_eq_dec.

(** A template as a nested list is given one: absent, or a list of
    nodes. *)
Abbreviation Template := (option (list TemplateNode)).

(** The mutations the effects dispatch. *)
Inductive Action :=
  | UpdateBlockListSettings (root : string) (settings : Settings)
  | ReplaceInnerBlocks (root : string) (blocks : list BlockNode)
      (updateSelection : JSValue).

(** Modelled from the spec: the block store is not part of the sources at
    hand.  It keeps the nested list of every root id, the root id a
    nested list's block lives under, the settings of every nested list,
    a supply of fresh block ids and, for this development, the mutations
    applied so far, oldest first. *)
Record Store := {
  innerBlocks : gmap string (list BlockNode);
  parentOf : gmap string string;
  blockListSettings : gmap string Settings;
  nextClientId : nat;
  dispatched : list Action;
}.

Definition getBlocks (st : Store) (root : string) : list BlockNode :=
  default [] (innerBlocks st !! root).

(** The settings of the nearest ancestor list, already resolved when they
    were written. *)
Definition inheritedSettings (st : Store) (root : string) : option Settings :=
  match parentOf st !! root with
  | Some parent => blockListSettings st !! parent
  | None => None
  end.

Definition updateBlockListSettings (root : string) (s : Settings)
    (st : Store) : Store :=
  {| innerBlocks := innerBlocks st;
     parentOf := parentOf st;
     blockListSettings := <[root := s]> (blockListSettings st);
     nextClientId := nextClientId st;
     dispatched := dispatched st ++ [UpdateBlockListSettings root s] |}.

Definition replaceInnerBlocks (root : string) (blocks : list BlockNode)
    (updateSelection : JSValue) (supply : nat) (st : Store) : Store :=
  {| innerBlocks := <[root := blocks]> (innerBlocks st);
     parentOf := parentOf st;
     blockListSettings := blockListSettings st;
     nextClientId := supply;
     dispatched :=
       dispatched st ++ [ReplaceInnerBlocks root blocks updateSelection] |}.

(** ** The settings propagator *)

(** An unset input takes the value the nearest ancestor resolved. *)
Definition inherit (own : JSValue) (field : Settings -> JSValue)
    (ancestor : option Settings) : JSValue :=
  match own with
  | JUndefined =>
      match ancestor with
      | Some s => field s
      | None => JUndefined
      end
  | _ => own
  end.

(** Modelled from the spec: the effect of [useNestedSettingsUpdate], which
    is imported from [./use-nested-settings-update].  It writes the merged
    settings record under the root id; unset fields fall back to the
    nearest ancestor's resolved value, the toolbar-capture flag defaults
    to false; nothing is written when the merged record is the stored
    one. *)
Definition nestedSettingsUpdate (root : string)
    (allowed lock capture orient : JSValue) (st : Store) : Store :=
  let ancestor := inheritedSettings st root in
  let merged :=
    {| allowedBlocks := inherit allowed allowedBlocks ancestor;
       templateLock := inherit lock templateLock ancestor;
       captureToolbars :=
         match capture with JUndefined => JBool false | _ => capture end;
       orientation := inherit orient orientation ancestor |} in
  if decide (blockListSettings st !! root = Some merged) then st
  else updateBlockListSettings root merged st.

(** ** The template synchronizer *)

(** Blocks for a list of template nodes, with ids from the supply
    [next]; returns the blocks and the supply left. *)
Fixpoint synthesize (next : nat) (t : TemplateNode) : BlockNode * nat :=
  match t with
  | TNode n defaults inner =>
      let children :=
        (fix each (next : nat) (l : list TemplateNode)
           : list BlockNode * nat :=
           match l with
           | [] => ([], next)
           | x :: rest =>
               let (b, next') := synthesize next x in
               let (bs, next'') := each next' rest in
               (b :: bs, next'')
           end) (S next) inner in
      (BNode ("block-" +:+ pretty next) n defaults (fst children),
       snd children)
  end.

Fixpoint synthesizeAll (next : nat) (l : list TemplateNode)
    : list BlockNode * nat :=
  match l with
  | [] => ([], next)
  | x :: rest =>
      let (b, next') := synthesize next x in
      let (bs, next'') := synthesizeAll next' rest in
      (b :: bs, next'')
  end.

(** A block matches a template node: same type name, the attribute
    defaults as attributes, children matching the child nodes in order. *)
Inductive Matches : BlockNode -> TemplateNode -> Prop :=
  | Matches_node id n attrs blocks nodes :
      Forall2 Matches blocks nodes ->
      Matches (BNode id n attrs blocks) (TNode n attrs nodes).

Definition blockTypeName (b : BlockNode) : string :=
  match b with BNode _ n _ _ => n end.
Definition nodeTypeName (t : TemplateNode) : string :=
  match t with TNode n _ _ => n end.

(** Reconciliation by position: the block at a position is kept when it
    has the type the template node at that position names, and is
    replaced by a synthesized block otherwise; positions beyond the
    template are dropped. *)
Fixpoint reconcile (next : nat) (blocks : list BlockNode)
    (nodes : list TemplateNode) : list BlockNode * nat :=
  match nodes with
  | [] => ([], next)
  | t :: nodes' =>
      match blocks with
      | b :: blocks' =>
          if decide (blockTypeName b = nodeTypeName t) then
            let (bs, next') := reconcile next blocks' nodes' in
            (b :: bs, next')
          else
            let (b', next') := synthesize next t in
            let (bs, next'') := reconcile next' blocks' nodes' in
            (b' :: bs, next'')
      | [] => synthesizeAll next (t :: nodes')
      end
  end.

(** What an instance of the hook remembers between renders: nothing
    before a template was first associated with its root id, the
    template it last saw afterwards. *)
Inductive SyncMemory :=
  | NotAssociated
  | Associated (template : list TemplateNode).

(** Modelled from the spec: the effect of [useInnerBlockTemplateSync],
    which is imported from [./use-inner-block-template-sync].  On the
    first association of the root id with a non-empty template the
    children are synthesized when the list has none, and the template is
    not applied when the list has children; afterwards a changed template
    is reconciled by position under lock ['all'] and nothing happens
    otherwise. *)
Definition innerBlockTemplateSync (root : string) (template : Template)
    (lock updateSelection : JSValue) (mem : SyncMemory) (st : Store)
    : SyncMemory * Store :=
  match mem, template with
  | NotAssociated, Some (t :: ts) =>
      match getBlocks st root with
      | [] =>
          let (blocks, supply) := synthesizeAll (nextClientId st) (t :: ts) in
          (Associated (t :: ts),
           replaceInnerBlocks root blocks updateSelection supply st)
      | _ :: _ => (Associated (t :: ts), st)
      end
  | Associated seen, Some nodes =>
      if decide (lock = JStr "all") then
        if decide (nodes = seen) then (mem, st)
        else
          let (blocks, supply) :=
            reconcile (nextClientId st) (getBlocks st root) nodes in
          (Associated nodes,
           replaceInnerBlocks root blocks updateSelection supply st)
      else (mem, st)
  | _, _ => (mem, st)
  end.

(** ** Committing a render *)

(** One mounted nested list: what its template hook remembers, and the
    store. *)
Record World := {
  memory : SyncMemory;
  store : Store;
}.

Section Commit.
(** Template definitions are parsed, and controlled lists are
    synchronised with their outside value, by collaborators that are
    taken as given. *)
Variable parseTemplate : JSValue -> Template.
Variable blockSync : JSObject -> Store -> Store.

(** The effect of one hook call; a hook called with an id that is no
    block id has no list to act on. *)
Definition runHook (w : World) (h : HookCall) : World :=
  match h with
  | BlockSyncCall props =>
      {| memory := memory w; store := blockSync props (store w) |}
  | NestedSettingsUpdateCall (JStr root) allowed lock capture orient =>
      {| memory := memory w;
         store := nestedSettingsUpdate root allowed lock capture orient
                    (store w) |}
  | InnerBlockTemplateSyncCall (JStr root) template lock updateSelection =>
      let (mem, st) :=
        innerBlockTemplateSync root (parseTemplate template) lock
          updateSelection (memory w) (store w) in
      {| memory := mem; store := st |}
  | _ => w
  end.

(** The effects of a render are applied in the order in which the
    render called their hooks. *)
Definition commit (log : list HookCall) (w : World) : World :=
  fold_left runHook log w.
End Commit.

(** A later render of the same instance keeps the memory; a new mount
    starts without one. *)
Inductive Pass :=
  | Rerender
  | Remount.

Definition syncPass (root : string) (template : Template)
    (lock updateSelection : JSValue) (w : World) (p : Pass) : World :=
  let mem := match p with Rerender => memory w | Remount => NotAssociated end in
  let (mem', st) :=
    innerBlockTemplateSync root template lock updateSelection mem (store w) in
  {| memory := mem'; store := st |}.

Definition syncPasses (root : string) (template : Template)
    (lock updateSelection : JSValue) (passes : list Pass) (w : World)
    : World :=
  fold_left (syncPass root template lock updateSelection) passes w.

(** How often the children of [root] were replaced. *)
Definition isReplacementOf (root : string) (a : Action) : bool :=
  match a with
  | ReplaceInnerBlocks r _ _ => bool_decide (r = root)
  | _ => false
  end.

Definition replacements (root : string) (st : Store) : nat :=
  length (List.filter (isReplacementOf root) (dispatched st)).

(** The hooks of a render: the block synchronisation at most once, in
    front; then nothing, or the settings update directly followed by the
    template synchronisation for the same id and lock. *)
Definition hookLogShape (log : list HookCall) : Prop :=
  exists pre,
    (pre = [] \/ exists p, pre = [BlockSyncCall p])
    /\ (log = pre
        \/ exists c a l ct o t u,
             log = pre ++ [NestedSettingsUpdateCall c a l ct o;
                           InnerBlockTemplateSyncCall c t l u]).

(** ** Concrete surroundings *)

(** A store that has the one block ['a'], of the given type, with the
    given selection flags. *)
Definition oneBlockStore (typeName : string) (attrs : JSObject)
    (selected innerSelected navigation : bool) : Selectors :=
  {| getBlock := fun id =>
       match id with
       | JStr "a" => Some {| name := typeName; attributes := attrs |}
       | _ => None
       end;
     getBlockName := fun id =>
       match id with
       | JStr "a" => Some typeName
       | _ => None
       end;
     isBlockSelected := fun id =>
       match id with
       | JStr "a" => selected
       | _ => false
       end;
     hasSelectedInnerBlock := fun id _ =>
       match id with
       | JStr "a" => innerSelected
       | _ => false
       end;
     isNavigationMode := navigation |}.

(** A store without blocks. *)
Definition emptyStore : Selectors :=
  {| getBlock := fun _ => None;
     getBlockName := fun _ => None;
     isBlockSelected := fun _ => false;
     hasSelectedInnerBlock := fun _ _ => false;
     isNavigationMode := false |}.

(** A registry with a type that provides context and one that does not. *)
Definition sampleRegistry : gmap string BlockType :=
  {[ "core/columns" := {| providesContext := None |};
     "core/query" := {| providesContext := Some [("queryId", "query/id")] |} ]}.

(** A group block ['a'], unselected, on a wide screen outside of
    navigation mode. *)
Definition groupEnv : Env :=
  {| select := oneBlockStore "core/group" [] false false false;
     registry := sampleRegistry;
     contextClientId := "a";
     isSmallScreen := false;
     fallbackRef := 0 |}.

(** The same block on a small screen. *)
Definition smallScreenEnv : Env :=
  {| select := oneBlockStore "core/group" [] false false false;
     registry := sampleRegistry;
     contextClientId := "a";
     isSmallScreen := true;
     fallbackRef := 0 |}.

(** A columns block ['a']: its type is registered and provides no
    context. *)
Definition columnsEnv : Env :=
  {| select := oneBlockStore "core/columns" [] false false false;
     registry := sampleRegistry;
     contextClientId := "a";
     isSmallScreen := false;
     fallbackRef := 0 |}.

(** A query block ['a'] with attribute [queryId] 7. *)
Definition queryEnv : Env :=
  {| select := oneBlockStore "core/query" [("queryId", JNum 7)] false false false;
     registry := sampleRegistry;
     contextClientId := "a";
     isSmallScreen := false;
     fallbackRef := 0 |}.

(** The block edit context names a block the store does not have. *)
Definition absentEnv : Env :=
  {| select := emptyStore;
     registry := sampleRegistry;
     contextClientId := "gone";
     isSmallScreen := true;
     fallbackRef := 0 |}.

(** A store without lists, settings or mutations, seen by a hook instance
    that remembers nothing. *)
Definition emptyBlockStore : Store :=
  {| innerBlocks := ∅;
     parentOf := ∅;
     blockListSettings := ∅;
     nextClientId := 0;
     dispatched := [] |}.

Definition freshWorld : World :=
  {| memory := NotAssociated; store := emptyBlockStore |}.

(** The list ['a'] already holds a paragraph. *)
Definition filledWorld : World :=
  {| memory := NotAssociated;
     store :=
       {| innerBlocks := {[ "a" := [BNode "p1" "core/paragraph" [] []] ]};
          parentOf := ∅;
          blockListSettings := ∅;
          nextClientId := 0;
          dispatched := [] |} |}.

(** A template of a heading and a columns block with one column. *)
Definition sampleTemplate : list TemplateNode :=
  [TNode "core/heading" [("level", JNum 2)] [];
   TNode "core/columns" [] [TNode "core/column" [] []]].

(** ** Proof tactics *)

(** Unfolds a render down to the store lookups it depends on. *)
Ltac run_render :=
  unfold result, hooks, run, UncontrolledInnerBlocks, Uncontrolled,
    ControlledInnerBlocks, useSelect, selectOverlay,
    useViewportMatch_medium_lt, useNestedSettingsUpdate,
    useInnerBlockTemplateSync, useBlockSync, useBlockEditContext, useRef,
    bind, ret, ask, call, throw;
  simpl.

(** ** Further readings and surroundings *)

(** The component an element names. *)
Definition elementType (e : JSValue) : option Component :=
  match e with
  | JElem c _ _ => Some c
  | _ => None
  end.

(** The block synchronisation was called. *)
Definition isBlockSyncCall (h : HookCall) : bool :=
  match h with
  | BlockSyncCall _ => true
  | _ => false
  end.

(** A block ['a'] whose type declares an empty [providesContext]
    mapping. *)
Definition emptyMappingEnv : Env :=
  {| select := oneBlockStore "core/empty" [("x", JNum 1)] false false false;
     registry := {[ "core/empty" := {| providesContext := Some [] |} ]};
     contextClientId := "a";
     isSmallScreen := false;
     fallbackRef := 0 |}.

(** * Properties *)

(** ** Values and objects *)

Lemma truthy_js_and a b : truthy (js_and a b) = truthy a && truthy b.
Proof. unfold js_and. destruct (truthy a) eqn:Ha; simpl; auto. Qed.

Lemma truthy_js_or_l a b : truthy a = true -> js_or a b = a.
Proof. unfold js_or. intros ->. reflexivity. Qed.

Lemma truthy_js_or_r a b : truthy a = false -> js_or a b = b.
Proof. unfold js_or. intros ->. reflexivity. Qed.

Lemma obj_lookup_delete k o : obj_lookup k (obj_delete k o) = None.
Proof.
  unfold obj_delete. induction o as [|[k' v] o IH]; simpl; [reflexivity|].
  rewrite filter_cons. simpl. destruct (decide (k' <> k)) as [Hne|Heq].
  - simpl. destruct (String.eqb_spec k' k); [contradiction|exact IH].
  - exact IH.
Qed.

Lemma obj_get_delete k o : obj_get (obj_delete k o) k = JUndefined.
Proof. unfold obj_get. rewrite obj_lookup_delete. reflexivity. Qed.

Lemma controlledInputs_spec props :
  controlledInputs props = true <->
  truthy (obj_get props "value") = true /\
  truthy (obj_get props "onChange") = true.
Proof.
  unfold controlledInputs. rewrite truthy_js_and. apply andb_true_iff.
Qed.

Lemma controlledInputs_delete_value props :
  controlledInputs (obj_delete "value" props) = false.
Proof.
  unfold controlledInputs. rewrite truthy_js_and, obj_get_delete. reflexivity.
Qed.

Lemma controlledInputs_delete_onChange props :
  controlledInputs (obj_delete "onChange" props) = false.
Proof.
  unfold controlledInputs.
  rewrite truthy_js_and, obj_get_delete. apply andb_false_r.
Qed.

(** ** Mode selection *)

Lemma ForwardedInnerBlocks_mode env props ref :
  selectedMode (ForwardedInnerBlocks props ref) env =
  Some (if controlledInputs props then Controlled else UncontrolledMode).
Proof.
  unfold selectedMode, result, run, ForwardedInnerBlocks, controlledInputs,
    bind, useBlockEditContext, useRef, ask, ret.
  simpl. destruct (truthy _); reflexivity.
Qed.

Lemma InnerBlocks_mode env props :
  selectedMode (InnerBlocks props) env =
  Some (if controlledInputs props then Controlled else UncontrolledMode).
Proof.
  unfold selectedMode, result, run, InnerBlocks, controlledInputs,
    bind, useBlockEditContext, ask, ret.
  simpl. destruct (truthy _); reflexivity.
Qed.

(** C1, as stated, fails: with [value: null] and an [onChange] callback
    both props are supplied on the render, and both selectors choose the
    uncontrolled component. *)
Lemma supplied_inputs_not_controlled :
  let props := [("value", JNull); ("onChange", JFun 1)] in
  (obj_has props "value" = true /\ obj_has props "onChange" = true)
  /\ selectedMode (ForwardedInnerBlocks props JNull) groupEnv
       = Some UncontrolledMode
  /\ selectedMode (InnerBlocks props) groupEnv = Some UncontrolledMode
  /\ ~ (selectedMode (ForwardedInnerBlocks props JNull) groupEnv
          = Some Controlled <->
        obj_has props "value" = true /\ obj_has props "onChange" = true).
Proof.
  intros props. split; [split; reflexivity|].
  split; [reflexivity|]. split; [reflexivity|].
  intros [_ H]. specialize (H (conj eq_refl eq_refl)).
  vm_compute in H. discriminate H.
Qed.

(** C1, amended: on every render both selectors choose the controlled
    component exactly when [value] and [onChange] are both truthy, and the
    uncontrolled one otherwise; the choice never throws, depends on the
    props of that render alone (not on the surroundings, so not on an
    earlier render), and is the uncontrolled component as soon as either
    prop is removed. *)
Theorem controlled_iff_both_truthy :
  forall env props ref,
    (selectedMode (ForwardedInnerBlocks props ref) env = Some Controlled <->
     truthy (obj_get props "value") = true /\
     truthy (obj_get props "onChange") = true)
    /\ (selectedMode (InnerBlocks props) env = Some Controlled <->
        truthy (obj_get props "value") = true /\
        truthy (obj_get props "onChange") = true)
    /\ (selectedMode (ForwardedInnerBlocks props ref) env
          = Some UncontrolledMode <->
        ~ (truthy (obj_get props "value") = true /\
           truthy (obj_get props "onChange") = true))
    /\ (selectedMode (InnerBlocks props) env = Some UncontrolledMode <->
        ~ (truthy (obj_get props "value") = true /\
           truthy (obj_get props "onChange") = true))
    /\ (forall env' ref',
          selectedMode (ForwardedInnerBlocks props ref') env' =
          selectedMode (ForwardedInnerBlocks props ref) env)
    /\ (forall env',
          selectedMode (InnerBlocks props) env' =
          selectedMode (InnerBlocks props) env)
    /\ selectedMode (ForwardedInnerBlocks (obj_delete "value" props) ref) env
         = Some UncontrolledMode
    /\ selectedMode (ForwardedInnerBlocks (obj_delete "onChange" props) ref)
         env = Some UncontrolledMode
    /\ selectedMode (InnerBlocks (obj_delete "value" props)) env
         = Some UncontrolledMode
    /\ selectedMode (InnerBlocks (obj_delete "onChange" props)) env
         = Some UncontrolledMode.
Proof.
  intros env props ref.
  rewrite !ForwardedInnerBlocks_mode, !InnerBlocks_mode.
  rewrite controlledInputs_delete_value, controlledInputs_delete_onChange.
  rewrite <- controlledInputs_spec.
  destruct (controlledInputs props) eqn:E; repeat split; intros;
    try reflexivity; try congruence;
    rewrite ?ForwardedInnerBlocks_mode, ?InnerBlocks_mode, E; reflexivity.
Qed.

(** C9: a [value] or [onChange] prop that is supplied with a falsy value
    leaves both selectors on the uncontrolled component. *)
Theorem falsy_inputs_run_uncontrolled :
  forall env props ref,
    (obj_has props "value" = true /\
     truthy (obj_get props "value") = false) \/
    (obj_has props "onChange" = true /\
     truthy (obj_get props "onChange") = false) ->
    selectedMode (ForwardedInnerBlocks props ref) env = Some UncontrolledMode
    /\ selectedMode (InnerBlocks props) env = Some UncontrolledMode.
Proof.
  intros env props ref H.
  rewrite ForwardedInnerBlocks_mode, InnerBlocks_mode.
  assert (controlledInputs props = false) as ->; [|split; reflexivity].
  unfold controlledInputs. rewrite truthy_js_and.
  destruct H as [[_ ->]|[_ ->]]; [reflexivity|apply andb_false_r].
Qed.

Lemma falsy_inputs_run_uncontrolled_witness :
  let props := [("value", JArr []); ("onChange", JNull)] in
  obj_has props "value" = true /\ obj_has props "onChange" = true /\
  selectedMode (ForwardedInnerBlocks props JNull) groupEnv
    = Some UncontrolledMode /\
  selectedMode (InnerBlocks props) groupEnv = Some UncontrolledMode.
Proof.
  split; [reflexivity|]. split; [reflexivity|].
  apply (falsy_inputs_run_uncontrolled groupEnv
           [("value", JArr []); ("onChange", JNull)] JNull).
  right. split; reflexivity.
Defined.

(** ** Objects, continued *)

Lemma obj_lookup_set_eq k v o : obj_lookup k (obj_set k v o) = Some v.
Proof.
  induction o as [|[k' v'] o IH]; simpl.
  - rewrite String.eqb_refl. reflexivity.
  - destruct (String.eqb_spec k' k) as [->|Hne]; simpl.
    + rewrite String.eqb_refl. reflexivity.
    + destruct (String.eqb_spec k' k); [contradiction|exact IH].
Qed.

Lemma obj_lookup_set_ne k k' v o :
  k <> k' -> obj_lookup k' (obj_set k v o) = obj_lookup k' o.
Proof.
  intros Hne. induction o as [|[k0 v0] o IH]; simpl.
  - destruct (String.eqb_spec k k'); [contradiction|reflexivity].
  - destruct (String.eqb_spec k0 k) as [->|Hk0]; simpl.
    + destruct (String.eqb_spec k k'); [contradiction|reflexivity].
    + destruct (String.eqb_spec k0 k'); [reflexivity|exact IH].
Qed.

Lemma obj_get_set_eq k v o : obj_get (obj_set k v o) k = v.
Proof. unfold obj_get. rewrite obj_lookup_set_eq. reflexivity. Qed.

Lemma obj_get_set_ne k k' v o :
  k <> k' -> obj_get (obj_set k v o) k' = obj_get o k'.
Proof. intros H. unfold obj_get. rewrite obj_lookup_set_ne; auto. Qed.

(** ** The overlay *)

(** C2: for a block the store has, the overlay state that
    [UncontrolledInnerBlocks] selects is active exactly when the block is
    not a ['core/template'] block, is not selected and has no selected
    block among its descendants, and click-through is enabled exactly in
    navigation mode or below the medium breakpoint; the overlay that
    [useInnerBlocksProps] selects is the conjunction of the same three
    conditions and the same gate. *)
Theorem overlay_state_conditions :
  forall env sel clientId small b log,
    getBlock sel clientId = Some b ->
    (exists s,
        selectOverlay clientId small sel env log = (log, Returned s)
        /\ block s = b
        /\ (hasOverlay s = true <->
            name b <> "core/template"
            /\ isBlockSelected sel clientId = false
            /\ hasSelectedInnerBlock sel clientId true = false)
        /\ (enableClickThrough s = true <->
            isNavigationMode sel = true \/ small = true))
    /\ (exists h,
           selectHasOverlay clientId small sel env log = (log, Returned h)
           /\ (h = true <->
               (getBlockName sel clientId <> Some "core/template"
                /\ isBlockSelected sel clientId = false
                /\ hasSelectedInnerBlock sel clientId true = false)
               /\ (isNavigationMode sel = true \/ small = true))).
Proof.
  intros env sel clientId small b log Hb. split.
  - unfold selectOverlay. rewrite Hb. eexists. split; [reflexivity|].
    simpl. split; [reflexivity|]. split.
    + rewrite !andb_true_iff, !negb_true_iff.
      destruct (String.eqb_spec (name b) "core/template"); intuition congruence.
    + apply orb_true_iff.
  - unfold selectHasOverlay, ret. eexists. split; [reflexivity|].
    rewrite !andb_true_iff, !negb_true_iff, orb_true_iff.
    rewrite bool_decide_eq_false. tauto.
Qed.

Lemma overlay_state_conditions_witness :
  exists s,
    selectOverlay (JStr "a") true (select smallScreenEnv) smallScreenEnv []
      = ([], Returned s)
    /\ hasOverlay s = true /\ enableClickThrough s = true.
Proof.
  destruct (overlay_state_conditions smallScreenEnv (select smallScreenEnv)
              (JStr "a") true
              {| name := "core/group"; attributes := [] |} [] eq_refl)
    as [[s [Hs [_ [Ho Hc]]]] _].
  exists s. split; [exact Hs|]. split.
  - apply Ho. repeat split; discriminate.
  - apply Hc. right. reflexivity.
Defined.

(** ** The full wrapper *)

Lemma classes_of_flags (overlay : bool) (capture : JSValue) :
  classnames [JObj [("has-overlay", JBool overlay);
                     ("is-capturing-toolbar", capture)]] =
  match overlay, truthy capture with
  | true, true => "has-overlay is-capturing-toolbar"
  | true, false => "has-overlay"
  | false, true => "is-capturing-toolbar"
  | false, false => ""
  end.
Proof.
  unfold classnames. simpl. unfold truthy_keys. simpl.
  destruct overlay, (truthy capture); reflexivity.
Qed.

(** What [UncontrolledInnerBlocks] does for a block the store has. *)
Lemma UncontrolledInnerBlocks_present env props b log :
  getBlock (select env) (obj_get props "clientId") = Some b ->
  exists e,
    UncontrolledInnerBlocks props env log =
      (log ++ [NestedSettingsUpdateCall (obj_get props "clientId")
                 (obj_get props "allowedBlocks")
                 (obj_get props "templateLock")
                 (obj_get props "__experimentalCaptureToolbars")
                 (obj_get props "orientation");
               InnerBlockTemplateSyncCall (obj_get props "clientId")
                 (obj_get props "template")
                 (obj_get props "templateLock")
                 (obj_get props "templateInsertUpdatesSelection")],
       Returned e)
    /\ containerClassName e =
         JStr (classnames
                 [JObj [("has-overlay",
                         JBool ((isNavigationMode (select env)
                                 || isSmallScreen env)
                                && (negb (String.eqb (name b) "core/template")
                                    && negb (isBlockSelected (select env)
                                               (obj_get props "clientId"))
                                    && negb (hasSelectedInnerBlock (select env)
                                               (obj_get props "clientId")
                                               true))));
                        ("is-capturing-toolbar",
                         obj_get props "__experimentalCaptureToolbars")]])
    /\ contextScopes e =
         match getBlockType env (name b) with
         | Some bt => if providesContext bt is Some _ then 1 else 0
         | None => 0
         end
    /\ (forall d, mount d e = ret e).
Proof.
  intros Hb. run_render. rewrite Hb. simpl. rewrite <- app_assoc. simpl.
  unfold containerClassName.
  destruct (truthy (obj_get props "__experimentalTagName"));
    destruct (getBlockType env (name b)) as [bt|];
    try destruct (providesContext bt);
    (eexists; split; [reflexivity|]); simpl;
    rewrite obj_get_set_eq; (split; [reflexivity|]); (split; [reflexivity|]);
    intros [|d]; reflexivity.
Qed.

(** ... and for a block the store does not have. *)
Lemma UncontrolledInnerBlocks_absent env props log :
  getBlock (select env) (obj_get props "clientId") = None ->
  UncontrolledInnerBlocks props env log =
    (log, Thrown (TypeError "cannot read property 'name' of theBlock")).
Proof. intros Hb. run_render. rewrite Hb. reflexivity. Qed.

Lemma Uncontrolled_returns env props log :
  exists e,
    Uncontrolled props env log =
      (log ++ [NestedSettingsUpdateCall (obj_get props "clientId")
                 (obj_get props "allowedBlocks")
                 (obj_get props "templateLock")
                 (obj_get props "__experimentalCaptureToolbars")
                 (obj_get props "orientation");
               InnerBlockTemplateSyncCall (obj_get props "clientId")
                 (obj_get props "template")
                 (obj_get props "templateLock")
                 (obj_get props "templateInsertUpdatesSelection")],
       Returned e)
    /\ (e = blockListItemsOf props
        \/ exists context, e = JElem BlockContextProvider [("value", JObj context)] [blockListItemsOf props])
    /\ contextScopes e =
         match getBlock (select env) (obj_get props "clientId") with
         | Some b =>
             match getBlockType env (name b) with
             | Some bt => if providesContext bt is Some _ then 1 else 0
             | None => 0
             end
         | None => 0
         end
    /\ (forall d, mount d e = ret e).
Proof.
  run_render. rewrite <- app_assoc. simpl.
  destruct (getBlock (select env) (obj_get props "clientId")) as [b|];
    [destruct (getBlockType env (name b)) as [bt|];
     [destruct (providesContext bt)|]|];
    (eexists; split; [reflexivity|]); simpl;
    (split; [first [left; reflexivity | right; eexists; reflexivity]|]);
    (split; [reflexivity|]); intros [|d]; reflexivity.
Qed.

(** *** Entry points: the depth of [render] suffices *)

Lemma mount_UncontrolledInnerBlocks d props children env log :
  mount (S d) (JElem UncontrolledInnerBlocksC props children) env log =
  UncontrolledInnerBlocks props env log.
Proof.
  change (mount (S d) (JElem UncontrolledInnerBlocksC props children) env log)
    with (bind (UncontrolledInnerBlocks props) (mount d) env log).
  unfold bind.
  destruct (getBlock (select env) (obj_get props "clientId")) as [b|] eqn:Hb.
  - destruct (UncontrolledInnerBlocks_present env props b log Hb)
      as [e [-> [_ [_ Hleaf]]]].
    rewrite Hleaf. reflexivity.
  - rewrite UncontrolledInnerBlocks_absent by exact Hb. reflexivity.
Qed.

Lemma mount_Uncontrolled d props children env log :
  mount (S d) (JElem UncontrolledC props children) env log =
  Uncontrolled props env log.
Proof.
  change (mount (S d) (JElem UncontrolledC props children) env log)
    with (bind (Uncontrolled props) (mount d) env log).
  unfold bind.
  destruct (Uncontrolled_returns env props log) as [e [-> [_ [_ Hleaf]]]].
  rewrite Hleaf. reflexivity.
Qed.

Lemma render_UncontrolledInnerBlocks props children env log :
  render (JElem UncontrolledInnerBlocksC props children) env log =
  UncontrolledInnerBlocks props env log.
Proof. apply mount_UncontrolledInnerBlocks. Qed.

Lemma render_Uncontrolled props children env log :
  render (JElem UncontrolledC props children) env log =
  Uncontrolled props env log.
Proof. apply mount_Uncontrolled. Qed.

Lemma mount_ControlledInnerBlocks d props children env log :
  mount (S (S d)) (JElem ControlledInnerBlocksC props children) env log =
  UncontrolledInnerBlocks props env (log ++ [BlockSyncCall props]).
Proof.
  change (mount (S (S d)) (JElem ControlledInnerBlocksC props children) env log)
    with (bind (ControlledInnerBlocks props) (mount (S d)) env log).
  unfold bind at 1. unfold ControlledInnerBlocks, useBlockSync, bind, call, ret.
  apply mount_UncontrolledInnerBlocks.
Qed.

Lemma render_InnerBlocks props children env log :
  render (JElem InnerBlocksC props children) env log =
  let props' := obj_set "clientId" (JStr (contextClientId env)) props in
  if controlledInputs props
  then UncontrolledInnerBlocks props' env (log ++ [BlockSyncCall props'])
  else Uncontrolled props' env log.
Proof.
  unfold render.
  change (mount 3 (JElem InnerBlocksC props children) env log)
    with (bind (InnerBlocks props) (mount 2) env log).
  unfold bind at 1.
  unfold InnerBlocks, useBlockEditContext, bind, ask, ret, controlledInputs.
  simpl fst. cbv zeta.
  destruct (truthy (js_and _ _)).
  - apply mount_ControlledInnerBlocks.
  - apply mount_Uncontrolled.
Qed.

Lemma renderForwardedInnerBlocks_unfold props ref env log :
  renderForwardedInnerBlocks props ref env log =
  let allProps :=
    obj_spread [("clientId", JStr (contextClientId env));
                ("forwardedRef", js_or ref (JRef (fallbackRef env)))] props in
  if controlledInputs props
  then UncontrolledInnerBlocks allProps env (log ++ [BlockSyncCall allProps])
  else UncontrolledInnerBlocks allProps env log.
Proof.
  unfold renderForwardedInnerBlocks, render.
  unfold bind at 1.
  unfold ForwardedInnerBlocks, useBlockEditContext, useRef, bind, ask, ret,
    controlledInputs.
  cbv zeta.
  destruct (truthy (js_and _ _)).
  - apply mount_ControlledInnerBlocks.
  - apply mount_UncontrolledInnerBlocks.
Qed.

Lemma string_app_nil_r (s : string) : s +:+ "" = s.
Proof.
  induction s as [|a s IH]; [reflexivity|].
  change (String a (s +:+ "") = String a s). f_equal. exact IH.
Qed.

Lemma string_app_assoc (s t u : string) : (s +:+ t) +:+ u = s +:+ (t +:+ u).
Proof.
  induction s as [|a s IH]; [reflexivity|].
  change (String a ((s +:+ t) +:+ u) = String a (s +:+ (t +:+ u))).
  f_equal. exact IH.
Qed.

Lemma occursIn_refl s : occursIn s s.
Proof. exists "", "". rewrite string_app_nil_r. reflexivity. Qed.

Lemma occursIn_app_r s t u : occursIn s u -> occursIn s (t +:+ u).
Proof.
  intros [pre [post ->]]. exists (t +:+ pre), post.
  rewrite string_app_assoc. reflexivity.
Qed.

Lemma occursIn_app_l s t u : occursIn s t -> occursIn s (t +:+ u).
Proof.
  intros [pre [post ->]]. exists pre, (post +:+ u).
  rewrite !string_app_assoc. reflexivity.
Qed.

Lemma join_cons sep x y l :
  join sep (x :: y :: l) = x +:+ sep +:+ join sep (y :: l).
Proof. reflexivity. Qed.

Lemma occursIn_join sep x l : x ∈ l -> occursIn x (join sep l).
Proof.
  induction l as [|y l IH]; intros Hx; [inversion Hx|].
  destruct l as [|z l].
  - apply list_elem_of_singleton in Hx. subst. apply occursIn_refl.
  - rewrite join_cons. apply elem_of_cons in Hx. destruct Hx as [->|Hx].
    + apply occursIn_app_l, occursIn_refl.
    + apply occursIn_app_r, occursIn_app_r, IH, Hx.
Qed.

(** C3, as stated, fails: for the unselected group block on a wide
    screen outside of navigation mode the overlay state is active, and the
    class names of the rendered list do not include [has-overlay]. *)
Lemma overlay_active_without_class :
  exists s e,
    result (useSelect (selectOverlay (JStr "a") false)) groupEnv = Returned s
    /\ result (UncontrolledInnerBlocks [("clientId", JStr "a")]) groupEnv
         = Returned e
    /\ hasOverlay s = true
    /\ hasClass "has-overlay" (containerClassName e) = false.
Proof.
  eexists. eexists. split; [reflexivity|]. split; [reflexivity|].
  split; reflexivity.
Qed.

(** C3, amended: for a block the store has, the class names of the list
    rendered by the full wrapper include [has-overlay] exactly when the
    overlay state is active and click-through is enabled (navigation mode
    or a viewport below the medium breakpoint), and [is-capturing-toolbar]
    exactly when the capture-toolbars flag is truthy. *)
Theorem container_class_names :
  forall env props b,
    getBlock (select env) (obj_get props "clientId") = Some b ->
    exists s e,
      result (useSelect (selectOverlay (obj_get props "clientId")
                           (isSmallScreen env))) env = Returned s
      /\ result (UncontrolledInnerBlocks props) env = Returned e
      /\ (hasClass "has-overlay" (containerClassName e) = true <->
          hasOverlay s = true /\ enableClickThrough s = true)
      /\ (hasClass "is-capturing-toolbar" (containerClassName e) = true <->
          truthy (obj_get props "__experimentalCaptureToolbars") = true).
Proof.
  intros env props b Hb.
  destruct (UncontrolledInnerBlocks_present env props b [] Hb)
    as [e [Hrun [Hcls _]]].
  eexists. exists e. split.
  { unfold result, run, useSelect, selectOverlay, bind, ask, ret.
    rewrite Hb. reflexivity. }
  split. { unfold result, run. rewrite Hrun. reflexivity. }
  rewrite Hcls, classes_of_flags. simpl.
  destruct (isNavigationMode (select env) || isSmallScreen env);
    destruct (negb (name b =? "core/template")%string
              && negb (isBlockSelected (select env) (obj_get props "clientId"))
              && negb (hasSelectedInnerBlock (select env)
                         (obj_get props "clientId") true));
    destruct (truthy (obj_get props "__experimentalCaptureToolbars"));
    vm_compute; intuition congruence.
Qed.

Lemma container_class_names_witness :
  exists s e,
    result (useSelect (selectOverlay (JStr "a") true)) smallScreenEnv
      = Returned s
    /\ result (UncontrolledInnerBlocks
                 [("clientId", JStr "a");
                  ("__experimentalCaptureToolbars", JBool true)])
         smallScreenEnv = Returned e
    /\ hasClass "has-overlay" (containerClassName e) = true
    /\ hasClass "is-capturing-toolbar" (containerClassName e) = true.
Proof.
  destruct (container_class_names smallScreenEnv
              [("clientId", JStr "a");
               ("__experimentalCaptureToolbars", JBool true)]
              {| name := "core/group"; attributes := [] |} eq_refl)
    as [s [e [Hs [He [Ho Hc]]]]].
  exists s, e. split; [exact Hs|]. split; [exact He|]. split.
  - apply Ho. vm_compute in Hs. injection Hs as <-. split; reflexivity.
  - apply Hc. reflexivity.
Defined.

(** C4, at a failing input: the block edit context names a block the
    store does not have.  The full wrapper, and [InnerBlocks] in controlled
    mode, throw on reading the name of the absent block;  [InnerBlocks] in
    uncontrolled mode renders the bare list; [useInnerBlocksProps] still
    computes the overlay and sets its class. *)
Theorem absent_block_aborts_full_wrapper :
  result (renderForwardedInnerBlocks [] JNull) absentEnv
    = Thrown (TypeError "cannot read property 'name' of theBlock")
  /\ result (render (JElem InnerBlocksC
                       [("value", JArr []); ("onChange", JFun 1)] []))
       absentEnv
     = Thrown (TypeError "cannot read property 'name' of theBlock")
  /\ result (render (JElem InnerBlocksC [] [])) absentEnv
     = Returned (JElem BlockListItems
                   [("rootClientId", JStr "gone");
                    ("renderAppender", JUndefined);
                    ("__experimentalAppenderTagName", JUndefined);
                    ("wrapperRef", JUndefined)] [])
  /\ (exists out,
        result (useInnerBlocksProps [] []) absentEnv = Returned out
        /\ hasClass "has-overlay" (obj_get out "className") = true).
Proof.
  split; [reflexivity|]. split; [reflexivity|]. split; [reflexivity|].
  eexists. split; reflexivity.
Qed.

(** C5: for a block the store has, whose type is not registered or
    declares no [providesContext] mapping, the full wrapper (with and
    without the block synchronisation in front) and [Uncontrolled] return
    the nested list with no [BlockContextProvider] around it. *)
Theorem no_context_scope_without_mapping :
  forall env props b,
    getBlock (select env) (obj_get props "clientId") = Some b ->
    getBlockType env (name b) = None \/
    (exists bt, getBlockType env (name b) = Some bt
                /\ providesContext bt = None) ->
    (exists e,
        result (render (JElem UncontrolledInnerBlocksC props [])) env
          = Returned e
        /\ contextScopes e = 0 /\ is_Some (findElement BlockList e))
    /\ (exists e,
           result (render (JElem ControlledInnerBlocksC props [])) env
             = Returned e
           /\ contextScopes e = 0 /\ is_Some (findElement BlockList e))
    /\ result (render (JElem UncontrolledC props [])) env
         = Returned (blockListItemsOf props).
Proof.
  intros env props b Hb Hty.
  assert (match getBlockType env (name b) with
          | Some bt => if providesContext bt is Some _ then 1 else 0
          | None => 0
          end = 0) as Hnone.
  { destruct Hty as [->|[bt [-> ->]]]; reflexivity. }
  assert (forall log, exists e,
             UncontrolledInnerBlocks props env log
               = (log ++ [NestedSettingsUpdateCall (obj_get props "clientId")
                            (obj_get props "allowedBlocks")
                            (obj_get props "templateLock")
                            (obj_get props "__experimentalCaptureToolbars")
                            (obj_get props "orientation");
                          InnerBlockTemplateSyncCall
                            (obj_get props "clientId")
                            (obj_get props "template")
                            (obj_get props "templateLock")
                            (obj_get props "templateInsertUpdatesSelection")],
                  Returned e)
             /\ contextScopes e = 0 /\ is_Some (findElement BlockList e))
    as Hfull.
  { intros log.
    destruct (UncontrolledInnerBlocks_present env props b log Hb)
      as [e [Hrun [Hcls [Hctx _]]]].
    exists e. split; [exact Hrun|]. split; [congruence|].
    unfold containerClassName in Hcls.
    destruct (findElement BlockList e); [eauto|discriminate]. }
  split; [|split].
  - destruct (Hfull []) as [e [Hrun He]]. exists e. split; [|exact He].
    unfold result, run. rewrite render_UncontrolledInnerBlocks, Hrun.
    reflexivity.
  - destruct (Hfull ([] ++ [BlockSyncCall props])) as [e [Hrun He]].
    exists e. split; [|exact He].
    unfold result, run, render. rewrite mount_ControlledInnerBlocks, Hrun.
    reflexivity.
  - unfold result, run. rewrite render_Uncontrolled.
    destruct (Uncontrolled_returns env props [])
      as [e [-> [[->|[context ->]] [Hctx _]]]]; [reflexivity|].
    rewrite Hb, Hnone in Hctx. discriminate Hctx.
Qed.

Lemma no_context_scope_without_mapping_witness :
  exists e,
    result (render (JElem UncontrolledInnerBlocksC [("clientId", JStr "a")] []))
      columnsEnv = Returned e
    /\ contextScopes e = 0.
Proof.
  destruct (no_context_scope_without_mapping columnsEnv
              [("clientId", JStr "a")]
              {| name := "core/columns"; attributes := [] |} eq_refl)
    as [[e [He [Hctx _]]] _].
  - right. exists {| providesContext := None |}. split; reflexivity.
  - exists e. split; [exact He|exact Hctx].
Defined.

(** ** The props-merging entry point *)

Lemma classes_of_string s :
  classes_of (JStr s) = if String.eqb s "" then [] else [s].
Proof. simpl. destruct (String.eqb s ""); reflexivity. Qed.

(** C10: [useInnerBlocksProps] returns an object that has the caller's
    fields unchanged except for [ref], [className] and [children]; its
    [ref] is the caller's whenever the caller's is a ref (truthy), and the
    hook's own ref otherwise; its [className] is a string in which
    ['block-editor-block-list__layout'] occurs, and in which the caller's
    class name occurs when the caller gave one. *)
Theorem useInnerBlocksProps_merges :
  forall env props options,
    exists out cls,
      result (useInnerBlocksProps props options) env = Returned out
      /\ (forall k, k <> "ref" -> k <> "className" -> k <> "children" ->
                    obj_lookup k out = obj_lookup k props)
      /\ (truthy (obj_get props "ref") = true ->
          obj_get out "ref" = obj_get props "ref")
      /\ (truthy (obj_get props "ref") = false ->
          obj_get out "ref" = JRef (fallbackRef env))
      /\ obj_get out "className" = JStr cls
      /\ occursIn "block-editor-block-list__layout" cls
      /\ (forall s, obj_get props "className" = JStr s -> occursIn s cls).
Proof.
  intros env props options.
  unfold result, run, useInnerBlocksProps, useRef, useBlockEditContext,
    useViewportMatch_medium_lt, useSelect, selectHasOverlay, bind, ask, ret.
  cbv zeta. simpl snd.
  eexists. eexists. split; [reflexivity|].
  split; [|split; [|split; [|split; [|split]]]].
  - intros k Hr Hc Hch. rewrite !obj_lookup_set_ne by congruence. reflexivity.
  - intros Href. rewrite obj_get_set_ne, obj_get_set_ne by discriminate.
    rewrite obj_get_set_eq. apply truthy_js_or_l, Href.
  - intros Href. rewrite obj_get_set_ne, obj_get_set_ne by discriminate.
    rewrite obj_get_set_eq. apply truthy_js_or_r, Href.
  - rewrite obj_get_set_ne by discriminate. rewrite obj_get_set_eq.
    reflexivity.
  - unfold classnames. apply occursIn_join.
    cbn [flat_map]. rewrite !elem_of_app. right. left.
    simpl. apply list_elem_of_here.
  - intros s Hs. rewrite Hs. unfold classnames. cbn [flat_map].
    rewrite classes_of_string.
    destruct (String.eqb_spec s "") as [->|Hne].
    + eexists "", _. reflexivity.
    + apply occursIn_join. apply list_elem_of_here.
Qed.

Lemma useInnerBlocksProps_merges_witness :
  exists out,
    result (useInnerBlocksProps
              [("id", JStr "x"); ("className", JStr "mine"); ("ref", JRef 5)]
              [("template", JArr [])]) groupEnv = Returned out
    /\ obj_lookup "id" out = Some (JStr "x")
    /\ obj_get out "ref" = JRef 5
    /\ obj_get out "className" = JStr "mine block-editor-block-list__layout".
Proof.
  destruct (useInnerBlocksProps_merges groupEnv
              [("id", JStr "x"); ("className", JStr "mine"); ("ref", JRef 5)]
              [("template", JArr [])])
    as [out [cls [Hout [Hframe [Href _]]]]].
  exists out. split; [exact Hout|]. split; [|split].
  - rewrite Hframe by discriminate. reflexivity.
  - apply Href. reflexivity.
  - vm_compute in Hout. injection Hout as <-. reflexivity.
Defined.

(** ** The context resolver *)

Lemma obj_keys_set k v o x :
  x ∈ obj_keys (obj_set k v o) <-> x = k \/ x ∈ obj_keys o.
Proof.
  unfold obj_keys. induction o as [|[k' v'] o IH]; simpl.
  - rewrite list_elem_of_singleton, elem_of_nil. tauto.
  - destruct (String.eqb_spec k' k) as [->|Hne]; simpl.
    + rewrite !elem_of_cons. tauto.
    + rewrite !elem_of_cons, IH. tauto.
Qed.

Lemma obj_keys_set_NoDup k v o :
  NoDup (obj_keys o) -> NoDup (obj_keys (obj_set k v o)).
Proof.
  unfold obj_keys. induction o as [|[k' v'] o IH]; simpl; intros Hnd.
  - apply NoDup_singleton.
  - apply NoDup_cons in Hnd as [Hnotin Hnd].
    destruct (String.eqb_spec k' k) as [->|Hne]; simpl.
    + apply NoDup_cons. split; assumption.
    + apply NoDup_cons. split; [|apply IH, Hnd].
      intros Hin. apply (obj_keys_set k v o k') in Hin.
      destruct Hin as [->|Hin]; [congruence|contradiction].
Qed.

Lemma obj_lookup_keys k o : k ∈ obj_keys o <-> is_Some (obj_lookup k o).
Proof.
  unfold obj_keys. induction o as [|[k' v'] o IH]; simpl.
  - rewrite elem_of_nil. split; [tauto|]. intros [? ?]. discriminate.
  - rewrite elem_of_cons.
    destruct (String.eqb_spec k' k) as [->|Hne].
    + split; eauto.
    + rewrite IH. split; [intros [?|?]; [congruence|assumption]|auto].
Qed.

Lemma addPairs_keys attrs mapping bag x :
  x ∈ obj_keys (addPairs attrs mapping bag) <->
  x ∈ obj_keys bag \/ x ∈ mapping.*2.
Proof.
  revert bag. induction mapping as [|[a k] mapping IH]; intros bag; simpl.
  - rewrite elem_of_nil. tauto.
  - rewrite IH, obj_keys_set, elem_of_cons. tauto.
Qed.

Lemma addPairs_NoDup attrs mapping bag :
  NoDup (obj_keys bag) -> NoDup (obj_keys (addPairs attrs mapping bag)).
Proof.
  revert bag. induction mapping as [|[a k] mapping IH]; intros bag H; simpl.
  - exact H.
  - apply IH, obj_keys_set_NoDup, H.
Qed.

Lemma addPairs_lookup_other attrs mapping bag k :
  k ∉ mapping.*2 ->
  obj_lookup k (addPairs attrs mapping bag) = obj_lookup k bag.
Proof.
  revert bag. induction mapping as [|[a k'] mapping IH]; intros bag H; simpl.
  - reflexivity.
  - simpl in H. apply not_elem_of_cons in H as [Hne Hnotin].
    rewrite IH by exact Hnotin. apply obj_lookup_set_ne. congruence.
Qed.

Lemma addPairs_lookup_declared attrs mapping bag a k :
  NoDup mapping.*2 -> (a, k) ∈ mapping ->
  obj_lookup k (addPairs attrs mapping bag) = Some (obj_get attrs a).
Proof.
  revert bag. induction mapping as [|[a' k'] mapping IH]; intros bag Hnd Hin.
  - inversion Hin.
  - simpl in Hnd. apply NoDup_cons in Hnd as [Hnotin Hnd].
    apply elem_of_cons in Hin as [Heq|Hin].
    + injection Heq as -> ->. simpl.
      rewrite addPairs_lookup_other by exact Hnotin.
      apply obj_lookup_set_eq.
    + simpl. apply IH; assumption.
Qed.

Lemma addPairs_lookup_origin attrs mapping bag k v :
  obj_lookup k (addPairs attrs mapping bag) = Some v ->
  obj_lookup k bag = Some v \/
  exists a, (a, k) ∈ mapping /\ v = obj_get attrs a.
Proof.
  revert bag. induction mapping as [|[a' k'] mapping IH]; intros bag H.
  - left. exact H.
  - simpl in H. apply IH in H as [H|[a [Hin Hv]]].
    + destruct (decide (k' = k)) as [->|Hne].
      * rewrite obj_lookup_set_eq in H. injection H as <-.
        right. exists a'. split; [apply list_elem_of_here|reflexivity].
      * rewrite obj_lookup_set_ne in H by exact Hne. left. exact H.
    + right. exists a. split; [apply list_elem_of_further, Hin|exact Hv].
Qed.

(** C6: for a descriptor that declares a [providesContext] mapping, the
    keys of the context bag are exactly the declared context keys, each
    once; every entry carries the current value of an attribute declared
    for its key; and when the declared context keys are pairwise distinct,
    every declared pair has its entry, which follows the attribute when
    the bag is computed again. *)
Theorem context_bag_entries :
  forall attrs blockType mapping,
    providesContext blockType = Some mapping ->
    (forall k, k ∈ obj_keys (getBlockContext attrs blockType) <->
               k ∈ mapping.*2)
    /\ NoDup (obj_keys (getBlockContext attrs blockType))
    /\ (forall k v,
           obj_lookup k (getBlockContext attrs blockType) = Some v ->
           exists a, (a, k) ∈ mapping /\ v = obj_get attrs a)
    /\ (NoDup mapping.*2 ->
        forall a k, (a, k) ∈ mapping ->
          obj_lookup k (getBlockContext attrs blockType)
            = Some (obj_get attrs a))
    /\ (NoDup mapping.*2 ->
        forall a k v, (a, k) ∈ mapping ->
          obj_lookup k (getBlockContext (obj_set a v attrs) blockType)
            = Some v).
Proof.
  intros attrs blockType mapping Hm. unfold getBlockContext. rewrite Hm.
  split; [|split; [|split; [|split]]].
  - intros k. rewrite addPairs_keys. simpl. rewrite elem_of_nil. tauto.
  - apply addPairs_NoDup. apply NoDup_nil_2.
  - intros k v H. apply addPairs_lookup_origin in H as [H|H];
      [discriminate H|exact H].
  - intros Hnd a k Hin. apply addPairs_lookup_declared; assumption.
  - intros Hnd a k v Hin.
    rewrite (addPairs_lookup_declared _ _ _ a k Hnd Hin).
    rewrite obj_get_set_eq. reflexivity.
Qed.

Lemma context_bag_entries_witness :
  getBlockContext [("queryId", JNum 7); ("layout", JStr "grid")]
    {| providesContext := Some [("queryId", "query/id")] |}
  = [("query/id", JNum 7)]
  /\ obj_lookup "query/id"
       (getBlockContext
          (obj_set "queryId" (JNum 8)
             [("queryId", JNum 7); ("layout", JStr "grid")])
          {| providesContext := Some [("queryId", "query/id")] |})
     = Some (JNum 8).
Proof.
  split; [reflexivity|].
  destruct (context_bag_entries
              [("queryId", JNum 7); ("layout", JStr "grid")]
              {| providesContext := Some [("queryId", "query/id")] |}
              [("queryId", "query/id")] eq_refl)
    as [_ [_ [_ [_ Hnext]]]].
  apply Hnext.
  - simpl. apply NoDup_singleton.
  - apply list_elem_of_here.
Defined.

(** On every render of a block whose type provides context, the scope
    around the nested list carries the bag computed from the block's
    current attributes. *)
Lemma Uncontrolled_provides_context env props b blockType mapping :
  getBlock (select env) (obj_get props "clientId") = Some b ->
  getBlockType env (name b) = Some blockType ->
  providesContext blockType = Some mapping ->
  result (Uncontrolled props) env
  = Returned
      (JElem BlockContextProvider
         [("value", JObj (getBlockContext (attributes b) blockType))]
         [blockListItemsOf props]).
Proof.
  intros Hb Hty Hm. run_render. rewrite Hb, Hty, Hm. reflexivity.
Qed.

Lemma UncontrolledInnerBlocks_provides_context env props b blockType mapping :
  getBlock (select env) (obj_get props "clientId") = Some b ->
  getBlockType env (name b) = Some blockType ->
  providesContext blockType = Some mapping ->
  exists e,
    result (UncontrolledInnerBlocks props) env = Returned e
    /\ findElement BlockContextProvider e
       = Some [("value", JObj (getBlockContext (attributes b) blockType))].
Proof.
  intros Hb Hty Hm. run_render. rewrite Hb. simpl. rewrite Hty, Hm.
  destruct (truthy (obj_get props "__experimentalTagName"));
    eexists; split; reflexivity.
Qed.

(** ** Hooks called by a render *)

Lemma UncontrolledInnerBlocks_hooks props env pre :
  fst (UncontrolledInnerBlocks props env pre) = pre
  \/ exists c a l ct o t u,
       fst (UncontrolledInnerBlocks props env pre)
       = pre ++ [NestedSettingsUpdateCall c a l ct o;
                 InnerBlockTemplateSyncCall c t l u].
Proof.
  destruct (getBlock (select env) (obj_get props "clientId")) as [b|] eqn:Hb.
  - destruct (UncontrolledInnerBlocks_present env props b pre Hb)
      as [e [-> _]].
    right. do 7 eexists. reflexivity.
  - rewrite UncontrolledInnerBlocks_absent by exact Hb. left. reflexivity.
Qed.

Lemma Uncontrolled_hooks props env pre :
  exists c a l ct o t u,
    fst (Uncontrolled props env pre)
    = pre ++ [NestedSettingsUpdateCall c a l ct o;
              InnerBlockTemplateSyncCall c t l u].
Proof.
  destruct (Uncontrolled_returns env props pre) as [e [-> _]].
  do 7 eexists. reflexivity.
Qed.

Lemma render_hooks_shape e env : hookLogShape (hooks (render e) env).
Proof.
  unfold hooks, run, hookLogShape.
  destruct e as [| | | | | | | | |c props children];
    try (exists []; split; [left; reflexivity|left; reflexivity]).
  destruct c; try (exists []; split; [left; reflexivity|left; reflexivity]).
  - unfold render. rewrite mount_ControlledInnerBlocks.
    exists [BlockSyncCall props]. split; [right; eauto|].
    apply UncontrolledInnerBlocks_hooks.
  - rewrite render_UncontrolledInnerBlocks.
    exists []. split; [left; reflexivity|].
    apply UncontrolledInnerBlocks_hooks.
  - rewrite render_Uncontrolled.
    exists []. split; [left; reflexivity|].
    right. apply Uncontrolled_hooks.
  - rewrite render_InnerBlocks. cbv zeta.
    destruct (controlledInputs props).
    + eexists [BlockSyncCall _]. split; [right; eauto|].
      apply UncontrolledInnerBlocks_hooks.
    + exists []. split; [left; reflexivity|].
      right. apply Uncontrolled_hooks.
Qed.

Lemma renderForwardedInnerBlocks_hooks_shape props ref env :
  hookLogShape (hooks (renderForwardedInnerBlocks props ref) env).
Proof.
  unfold hooks, run, hookLogShape.
  rewrite renderForwardedInnerBlocks_unfold. cbv zeta.
  destruct (controlledInputs props).
  - eexists [BlockSyncCall _]. split; [right; eauto|].
    apply UncontrolledInnerBlocks_hooks.
  - exists []. split; [left; reflexivity|].
    apply UncontrolledInnerBlocks_hooks.
Qed.

(** The default export runs the block synchronisation, first of all
    hooks, exactly in controlled mode. *)
Lemma controlled_render_runs_block_sync props ref env :
  (exists p rest,
      hooks (renderForwardedInnerBlocks props ref) env = BlockSyncCall p :: rest)
  <-> controlledInputs props = true.
Proof.
  unfold hooks, run. rewrite renderForwardedInnerBlocks_unfold. cbv zeta.
  destruct (controlledInputs props); split; try reflexivity; try discriminate.
  - intros _.
    destruct (UncontrolledInnerBlocks_hooks
                (obj_spread
                   [("clientId", JStr (contextClientId env));
                    ("forwardedRef", js_or ref (JRef (fallbackRef env)))]
                   props) env
                ([] ++ [BlockSyncCall
                          (obj_spread
                             [("clientId", JStr (contextClientId env));
                              ("forwardedRef",
                               js_or ref (JRef (fallbackRef env)))] props)]))
      as [->|[c [a [l [ct [o [t [u ->]]]]]]]]; eauto.
  - intros [p [rest H]].
    destruct (UncontrolledInnerBlocks_hooks
                (obj_spread
                   [("clientId", JStr (contextClientId env));
                    ("forwardedRef", js_or ref (JRef (fallbackRef env)))]
                   props) env [])
      as [Hlog|[c [a [l [ct [o [t [u Hlog]]]]]]]];
      rewrite Hlog in H; discriminate H.
Qed.

Lemma hookLogShape_sync log i c t l u :
  hookLogShape log ->
  log !! i = Some (InnerBlockTemplateSyncCall c t l u) ->
  exists j a ct o,
    i = S j
    /\ log !! j = Some (NestedSettingsUpdateCall c a l ct o)
    /\ take i log = take j log ++ [NestedSettingsUpdateCall c a l ct o]
    /\ take (S i) log = take i log ++ [InnerBlockTemplateSyncCall c t l u].
Proof.
  intros [pre [Hpre Hlog]] Hi.
  destruct Hpre as [->|[p ->]];
    destruct Hlog as [->|[c' [a [l' [ct [o [t' [u' ->]]]]]]]].
  - rewrite lookup_nil in Hi. discriminate.
  - destruct i as [|[|[|i]]]; simpl in Hi; try discriminate.
    injection Hi as -> -> -> ->. exists 0, a, ct, o. repeat split.
  - destruct i as [|[|i]]; simpl in Hi; discriminate.
  - destruct i as [|[|[|[|i]]]]; simpl in Hi; try discriminate.
    injection Hi as -> -> -> ->. exists 1, a, ct, o. repeat split.
Qed.

(** ** The settings propagator *)

Lemma nestedSettingsUpdate_settings root allowed lock capture orient st :
  exists s,
    blockListSettings (nestedSettingsUpdate root allowed lock capture orient st)
      !! root = Some s
    /\ templateLock s = inherit lock templateLock (inheritedSettings st root)
    /\ allowedBlocks s
       = inherit allowed allowedBlocks (inheritedSettings st root).
Proof.
  unfold nestedSettingsUpdate. cbv zeta.
  destruct (decide _) as [Heq|Hne].
  - eexists. split; [exact Heq|]. split; reflexivity.
  - eexists. split; [apply lookup_insert_eq|]. split; reflexivity.
Qed.

Lemma nestedSettingsUpdate_idempotent root allowed lock capture orient st :
  inheritedSettings (nestedSettingsUpdate root allowed lock capture orient st)
    root = inheritedSettings st root ->
  nestedSettingsUpdate root allowed lock capture orient
    (nestedSettingsUpdate root allowed lock capture orient st)
  = nestedSettingsUpdate root allowed lock capture orient st.
Proof.
  intros Hanc.
  unfold nestedSettingsUpdate at 1. cbv zeta. rewrite Hanc.
  destruct (nestedSettingsUpdate_settings root allowed lock capture orient st)
    as [s [Hs _]].
  destruct (decide _) as [_|Hne]; [reflexivity|].
  exfalso. apply Hne. unfold nestedSettingsUpdate. cbv zeta.
  destruct (decide _) as [Heq|_]; [exact Heq|apply lookup_insert_eq].
Qed.

Section CommitProperties.
Variable parseTemplate : JSValue -> Template.
Variable blockSync : JSObject -> Store -> Store.

Lemma commit_snoc log h w :
  commit parseTemplate blockSync (log ++ [h]) w
  = runHook parseTemplate blockSync (commit parseTemplate blockSync log w) h.
Proof. unfold commit. rewrite fold_left_app. reflexivity. Qed.
End CommitProperties.

(** C7: in the hooks of every render, through [render] or through the
    default export, a template synchronisation is directly preceded by
    the settings update for the same id and lock; so when the effects are
    applied in hook order, the store in which the synchronizer's effect is
    evaluated already has the settings of that root id, with the lock the
    propagator resolved. *)
Theorem settings_applied_before_template_sync :
  forall parseTemplate blockSync env w log i c t l u,
    (exists e, log = hooks (render e) env)
    \/ (exists props ref,
          log = hooks (renderForwardedInnerBlocks props ref) env) ->
    log !! i = Some (InnerBlockTemplateSyncCall c t l u) ->
    exists j a ct o,
      i = S j
      /\ log !! j = Some (NestedSettingsUpdateCall c a l ct o)
      /\ commit parseTemplate blockSync (take (S i) log) w
         = runHook parseTemplate blockSync
             (commit parseTemplate blockSync (take i log) w)
             (InnerBlockTemplateSyncCall c t l u)
      /\ forall root,
           c = JStr root ->
           exists s,
             blockListSettings
               (store (commit parseTemplate blockSync (take i log) w))
               !! root = Some s
             /\ templateLock s
                = inherit l templateLock
                    (inheritedSettings
                       (store (commit parseTemplate blockSync (take j log) w))
                       root).
Proof.
  intros parseTemplate blockSync env w log i c t l u Hlog Hi.
  assert (hookLogShape log) as Hshape.
  { destruct Hlog as [[e ->]|[props [ref ->]]];
      [apply render_hooks_shape|apply renderForwardedInnerBlocks_hooks_shape]. }
  destruct (hookLogShape_sync log i c t l u Hshape Hi)
    as [j [a [ct [o [-> [Hj [Htake Htake']]]]]]].
  exists j, a, ct, o. split; [reflexivity|]. split; [exact Hj|].
  split.
  - rewrite Htake'. apply commit_snoc.
  - intros root ->. rewrite Htake, commit_snoc. simpl.
    destruct (nestedSettingsUpdate_settings root a l ct o
                (store (commit parseTemplate blockSync (take j log) w)))
      as [s [Hs [Hlock _]]].
    exists s. split; assumption.
Qed.

Lemma settings_applied_before_template_sync_witness :
  let log :=
    hooks (render (JElem UncontrolledC
                     [("clientId", JStr "a"); ("templateLock", JStr "all")]
                     [])) groupEnv in
  exists s,
    blockListSettings
      (store (commit (fun _ => None) (fun _ st => st) (take 1 log) freshWorld))
      !! "a" = Some s
    /\ templateLock s = JStr "all".
Proof.
  intros log.
  destruct (settings_applied_before_template_sync
              (fun _ => None) (fun _ st => st) groupEnv freshWorld log 1
              (JStr "a") JUndefined (JStr "all") JUndefined)
    as [j [a [ct [o [Hj [_ [_ Hseen]]]]]]].
  - left. eexists. reflexivity.
  - reflexivity.
  - destruct (Hseen "a" eq_refl) as [s [Hs Hlock]].
    exists s. split; [exact Hs|exact Hlock].
Defined.

(** ** The template synchronizer *)

Lemma synthesize_unfold next n defaults inner :
  synthesize next (TNode n defaults inner)
  = (BNode ("block-" +:+ pretty next) n defaults
       (fst (synthesizeAll (S next) inner)),
     snd (synthesizeAll (S next) inner)).
Proof. reflexivity. Qed.

Lemma synthesize_matches : forall t next, Matches (fst (synthesize next t)) t.
Proof.
  fix IH 1. intros [n defaults inner] next.
  rewrite synthesize_unfold. simpl fst. constructor.
  generalize (S next). clear next.
  induction inner as [|x rest IHrest]; intros next; simpl.
  - constructor.
  - pose proof (IH x next) as Hx.
    destruct (synthesize next x) as [b next'].
    specialize (IHrest next').
    destruct (synthesizeAll next' rest) as [bs next''].
    simpl in *. constructor; assumption.
Qed.

Lemma synthesizeAll_matches nodes next :
  Forall2 Matches (fst (synthesizeAll next nodes)) nodes.
Proof.
  revert next. induction nodes as [|x rest IH]; intros next; simpl.
  - constructor.
  - pose proof (synthesize_matches x next) as Hx.
    destruct (synthesize next x) as [b next'].
    specialize (IH next').
    destruct (synthesizeAll next' rest) as [bs next''].
    simpl in *. constructor; assumption.
Qed.

Lemma getBlocks_replaceInnerBlocks root blocks upd supply st :
  getBlocks (replaceInnerBlocks root blocks upd supply st) root = blocks.
Proof.
  unfold getBlocks, replaceInnerBlocks. simpl.
  rewrite lookup_insert_eq. reflexivity.
Qed.

Lemma replacements_replaceInnerBlocks root blocks upd supply st :
  replacements root (replaceInnerBlocks root blocks upd supply st)
  = S (replacements root st).
Proof.
  unfold replacements, replaceInnerBlocks. simpl.
  rewrite List.filter_app, length_app. simpl.
  rewrite bool_decide_eq_true_2 by reflexivity. simpl. lia.
Qed.

(** Once the list has children and the hook remembers nothing or this
    very template, synchronising with the same template and lock changes
    nothing, however often and across how many mounts. *)
Lemma syncPasses_settled root nodes lock upd passes w :
  getBlocks (store w) root <> [] ->
  memory w = NotAssociated \/ memory w = Associated nodes ->
  store (syncPasses root (Some nodes) lock upd passes w) = store w.
Proof.
  revert w. induction passes as [|p passes IH]; intros w Hfull Hmem;
    [reflexivity|].
  change (syncPasses root (Some nodes) lock upd (p :: passes) w)
    with (syncPasses root (Some nodes) lock upd passes
            (syncPass root (Some nodes) lock upd w p)).
  assert (store (syncPass root (Some nodes) lock upd w p) = store w
          /\ (memory (syncPass root (Some nodes) lock upd w p) = NotAssociated
              \/ memory (syncPass root (Some nodes) lock upd w p)
                 = Associated nodes)) as [Hst Hmem'].
  { unfold syncPass, innerBlockTemplateSync.
    destruct p; [destruct Hmem as [->| ->]|].
    - destruct nodes as [|t ts]; [split; [reflexivity|left; reflexivity]|].
      destruct (getBlocks (store w) root); [contradiction|].
      split; [reflexivity|right; reflexivity].
    - destruct (decide (lock = JStr "all"));
        [destruct (decide (nodes = nodes)); [|contradiction]|];
        split; try reflexivity; right; reflexivity.
    - destruct nodes as [|t ts]; [split; [reflexivity|left; reflexivity]|].
      destruct (getBlocks (store w) root); [contradiction|].
      split; [reflexivity|right; reflexivity]. }
  rewrite IH; [exact Hst| rewrite Hst; exact Hfull | exact Hmem'].
Qed.

(** C8: mounting a root id that has no children with a non-empty
    template replaces its children once, by blocks that match the
    template, and no later render or mount with the same template and
    lock touches the store again; for a root id that has children when it
    is first encountered, no render or mount with that template and lock
    touches the store at all. *)
Theorem template_synthesized_once :
  forall root t nodes lock upd st,
    (getBlocks st root = [] ->
     let mounted :=
       syncPass root (Some (t :: nodes)) lock upd
         {| memory := NotAssociated; store := st |} Remount in
     Forall2 Matches (getBlocks (store mounted) root) (t :: nodes)
     /\ replacements root (store mounted) = S (replacements root st)
     /\ forall passes,
          store (syncPasses root (Some (t :: nodes)) lock upd passes mounted)
          = store mounted)
    /\ (getBlocks st root <> [] ->
        forall passes,
          store (syncPasses root (Some (t :: nodes)) lock upd passes
                   {| memory := NotAssociated; store := st |})
          = st).
Proof.
  intros root t nodes lock upd st. split.
  - intros Hempty mounted.
    assert (mounted
            = {| memory := Associated (t :: nodes);
                 store :=
                   replaceInnerBlocks root
                     (fst (synthesizeAll (nextClientId st) (t :: nodes))) upd
                     (snd (synthesizeAll (nextClientId st) (t :: nodes)))
                     st |}) as Hmounted.
    { unfold mounted, syncPass, innerBlockTemplateSync.
      cbn [memory store]. rewrite Hempty.
      destruct (synthesizeAll (nextClientId st) (t :: nodes)). reflexivity. }
    rewrite Hmounted. cbn [store].
    rewrite getBlocks_replaceInnerBlocks.
    split; [apply synthesizeAll_matches|].
    split; [apply replacements_replaceInnerBlocks|].
    intros passes. apply syncPasses_settled.
    + cbn [store]. rewrite getBlocks_replaceInnerBlocks.
      pose proof (synthesizeAll_matches (t :: nodes) (nextClientId st)) as H.
      intros Hnil. rewrite Hnil in H. inversion H.
    + right. reflexivity.
  - intros Hfull passes.
    apply (syncPasses_settled root (t :: nodes) lock upd passes
             {| memory := NotAssociated; store := st |}).
    + exact Hfull.
    + left. reflexivity.
Qed.

Lemma template_synthesized_once_witness :
  let mounted :=
    syncPass "a" (Some sampleTemplate) (JBool false) JUndefined freshWorld
      Remount in
  Forall2 Matches (getBlocks (store mounted) "a") sampleTemplate
  /\ replacements "a" (store mounted) = 1
  /\ store (syncPasses "a" (Some sampleTemplate) (JBool false) JUndefined
              [Rerender; Remount; Rerender] mounted) = store mounted
  /\ store (syncPasses "a" (Some sampleTemplate) (JStr "all") JUndefined
              [Rerender; Remount] filledWorld) = store filledWorld.
Proof.
  intros mounted.
  destruct (template_synthesized_once "a"
              (TNode "core/heading" [("level", JNum 2)] [])
              [TNode "core/columns" [] [TNode "core/column" [] []]]
              (JBool false) JUndefined emptyBlockStore) as [Hnew _].
  destruct (Hnew eq_refl) as [Hmatch [Hcount Hstable]].
  destruct (template_synthesized_once "a"
              (TNode "core/heading" [("level", JNum 2)] [])
              [TNode "core/columns" [] [TNode "core/column" [] []]]
              (JStr "all") JUndefined (store filledWorld)) as [_ Hold].
  split; [exact Hmatch|]. split; [exact Hcount|].
  split; [apply (Hstable [Rerender; Remount; Rerender])|].
  apply (Hold ltac:(discriminate) [Rerender; Remount]).
Defined.

(** * Further properties of the components *)

(** ** Objects, spread *)

Lemma obj_lookup_not_key k o : k ∉ obj_keys o -> obj_lookup k o = None.
Proof.
  intros Hk. destruct (obj_lookup k o) eqn:E; [|reflexivity].
  exfalso. apply Hk, obj_lookup_keys. eauto.
Qed.

Lemma obj_lookup_spread k base src :
  NoDup (obj_keys src) ->
  obj_lookup k (obj_spread base src)
  = match obj_lookup k src with
    | Some v => Some v
    | None => obj_lookup k base
    end.
Proof.
  unfold obj_spread. revert base.
  induction src as [|[k0 v0] src IH]; intros base Hnd; [reflexivity|].
  simpl in Hnd. apply NoDup_cons in Hnd as [Hnotin Hnd].
  simpl. rewrite IH by exact Hnd.
  destruct (String.eqb_spec k0 k) as [->|Hne].
  - rewrite (obj_lookup_not_key k src Hnotin). apply obj_lookup_set_eq.
  - destruct (obj_lookup k src); [reflexivity|].
    apply obj_lookup_set_ne, Hne.
Qed.

(** X1: [ForwardedInnerBlocks] spreads the caller's props last, so a
    [clientId] or [forwardedRef] prop of the caller replaces the client id
    of the block edit context and the forwarded ref; without such a prop
    the context's id and [ref || fallbackRef] are passed on; every other
    prop is passed on as given. *)
Theorem forwarded_props_take_precedence :
  forall env props ref,
    NoDup (obj_keys props) ->
    exists c allProps,
      result (ForwardedInnerBlocks props ref) env
        = Returned (JElem c allProps [])
      /\ obj_get allProps "clientId"
         = (if obj_has props "clientId" then obj_get props "clientId"
            else JStr (contextClientId env))
      /\ obj_get allProps "forwardedRef"
         = (if obj_has props "forwardedRef" then obj_get props "forwardedRef"
            else js_or ref (JRef (fallbackRef env)))
      /\ (forall k, k <> "clientId" -> k <> "forwardedRef" ->
                    obj_lookup k allProps = obj_lookup k props).
Proof.
  intros env props ref Hnd.
  unfold result, run, ForwardedInnerBlocks, useBlockEditContext, useRef,
    bind, ask, ret. cbv zeta.
  set (allProps := obj_spread _ props).
  assert (forall k,
            obj_lookup k allProps
            = match obj_lookup k props with
              | Some v => Some v
              | None =>
                  obj_lookup k
                    [("clientId", JStr (contextClientId env));
                     ("forwardedRef", js_or ref (JRef (fallbackRef env)))]
              end) as Hlook.
  { intros k. apply obj_lookup_spread, Hnd. }
  exists (if truthy (js_and (obj_get props "value") (obj_get props "onChange"))
          then ControlledInnerBlocksC else UncontrolledInnerBlocksC), allProps.
  split; [destruct (truthy _); reflexivity|].
  split; [|split].
  - unfold obj_get, obj_has. rewrite Hlook.
    destruct (obj_lookup "clientId" props); reflexivity.
  - unfold obj_get, obj_has. rewrite Hlook.
    destruct (obj_lookup "forwardedRef" props); reflexivity.
  - intros k Hc Hf. rewrite Hlook.
    destruct (obj_lookup k props); [reflexivity|]. cbn [obj_lookup].
    destruct (String.eqb_spec "clientId" k); [congruence|].
    destruct (String.eqb_spec "forwardedRef" k); [congruence|reflexivity].
Qed.

Lemma forwarded_props_take_precedence_witness :
  exists c allProps,
    result (ForwardedInnerBlocks
              [("clientId", JStr "other"); ("template", JArr [])] (JRef 9))
      groupEnv = Returned (JElem c allProps [])
    /\ obj_get allProps "clientId" = JStr "other"
    /\ obj_get allProps "forwardedRef" = JRef 9.
Proof.
  destruct (forwarded_props_take_precedence groupEnv
              [("clientId", JStr "other"); ("template", JArr [])] (JRef 9))
    as [c [allProps [Hrun [Hid [Hfwd _]]]]].
  - simpl. apply NoDup_cons. split; [|apply NoDup_singleton].
    rewrite list_elem_of_singleton. discriminate.
  - exists c, allProps. split; [exact Hrun|]. split; [exact Hid|exact Hfwd].
Defined.

(** X2: [InnerBlocks] sets [clientId] after spreading the props, so the
    component it chooses always gets the client id of the block edit
    context, whatever [clientId] the caller passes; every other prop is
    passed on as given. *)
Theorem innerBlocks_context_client_id_wins :
  forall env props,
    exists c chosenProps,
      result (InnerBlocks props) env = Returned (JElem c chosenProps [])
      /\ obj_get chosenProps "clientId" = JStr (contextClientId env)
      /\ (forall k, k <> "clientId" ->
                    obj_lookup k chosenProps = obj_lookup k props).
Proof.
  intros env props.
  unfold result, run, InnerBlocks, useBlockEditContext, bind, ask, ret.
  cbv zeta. eexists. eexists. split; [reflexivity|]. split.
  - apply obj_get_set_eq.
  - intros k Hk. apply obj_lookup_set_ne. congruence.
Qed.

(** ** A block the store does not have *)

(** X3: when the store has no block for [props.clientId], the full
    wrapper throws before it calls a hook, with the block synchronisation
    in front when it is rendered through [ControlledInnerBlocks], while
    [Uncontrolled] calls its two hooks and returns the bare list. *)
Theorem absent_block_by_component :
  forall env props,
    getBlock (select env) (obj_get props "clientId") = None ->
    run (render (JElem UncontrolledInnerBlocksC props [])) env
      = ([], Thrown (TypeError "cannot read property 'name' of theBlock"))
    /\ run (render (JElem ControlledInnerBlocksC props [])) env
       = ([BlockSyncCall props],
          Thrown (TypeError "cannot read property 'name' of theBlock"))
    /\ run (render (JElem UncontrolledC props [])) env
       = ([NestedSettingsUpdateCall (obj_get props "clientId")
             (obj_get props "allowedBlocks") (obj_get props "templateLock")
             (obj_get props "__experimentalCaptureToolbars")
             (obj_get props "orientation");
           InnerBlockTemplateSyncCall (obj_get props "clientId")
             (obj_get props "template") (obj_get props "templateLock")
             (obj_get props "templateInsertUpdatesSelection")],
          Returned (blockListItemsOf props)).
Proof.
  intros env props Hb. unfold run. split; [|split].
  - rewrite render_UncontrolledInnerBlocks.
    apply UncontrolledInnerBlocks_absent, Hb.
  - unfold render. rewrite mount_ControlledInnerBlocks.
    apply UncontrolledInnerBlocks_absent, Hb.
  - rewrite render_Uncontrolled. run_render. rewrite Hb. reflexivity.
Qed.

Lemma absent_block_by_component_witness :
  result (render (JElem UncontrolledInnerBlocksC [("clientId", JStr "gone")] []))
    absentEnv
    = Thrown (TypeError "cannot read property 'name' of theBlock")
  /\ result (render (JElem UncontrolledC [("clientId", JStr "gone")] []))
       absentEnv
     = Returned (blockListItemsOf [("clientId", JStr "gone")]).
Proof.
  destruct (absent_block_by_component absentEnv [("clientId", JStr "gone")]
              eq_refl) as [Hfull [_ Hbare]].
  unfold result. rewrite Hfull, Hbare. split; reflexivity.
Defined.

(** X4: for a block edit context whose block the store does not have,
    [InnerBlocks] returns the bare list of the context's client id in
    uncontrolled mode and throws in controlled mode. *)
Theorem innerBlocks_absent_block :
  forall env props,
    getBlock (select env) (JStr (contextClientId env)) = None ->
    result (render (JElem InnerBlocksC props [])) env
    = if controlledInputs props
      then Thrown (TypeError "cannot read property 'name' of theBlock")
      else Returned
             (blockListItemsOf
                (obj_set "clientId" (JStr (contextClientId env)) props)).
Proof.
  intros env props Hb. unfold result, run. rewrite render_InnerBlocks.
  cbv zeta. destruct (controlledInputs props).
  - rewrite UncontrolledInnerBlocks_absent; [reflexivity|].
    rewrite obj_get_set_eq. exact Hb.
  - run_render. rewrite obj_get_set_eq, Hb. simpl.
    unfold blockListItemsOf. rewrite obj_get_set_eq. reflexivity.
Qed.

Lemma innerBlocks_absent_block_witness :
  result (render (JElem InnerBlocksC [("template", JArr [])] [])) absentEnv
  = Returned
      (blockListItemsOf
         [("template", JArr []); ("clientId", JStr "gone")]).
Proof.
  exact (innerBlocks_absent_block absentEnv [("template", JArr [])] eq_refl).
Defined.

(** ** The tree the full wrapper returns *)

(** X5: for a block the store has, the [BlockList] element of the full
    wrapper gets [forwardedRef] as its [ref], [clientId] as its
    [rootClientId] and, as its [className], only the classes the wrapper
    computes: a [className] of the caller is discarded; every other prop
    of the wrapper reaches it unchanged. *)
Theorem blockList_receives_props :
  forall env props b,
    getBlock (select env) (obj_get props "clientId") = Some b ->
    exists e listProps cls,
      result (UncontrolledInnerBlocks props) env = Returned e
      /\ findElement BlockList e = Some listProps
      /\ obj_get listProps "ref" = obj_get props "forwardedRef"
      /\ obj_get listProps "rootClientId" = obj_get props "clientId"
      /\ obj_get listProps "className" = JStr cls
      /\ cls ∈ [""; "has-overlay"; "is-capturing-toolbar";
                "has-overlay is-capturing-toolbar"]
      /\ (forall k, k <> "ref" -> k <> "rootClientId" -> k <> "className" ->
                    obj_lookup k listProps = obj_lookup k props).
Proof.
  intros env props b Hb. run_render. rewrite Hb. simpl.
  rewrite classes_of_flags.
  assert (forall x y : bool,
            (if x then if y then "has-overlay is-capturing-toolbar"
                       else "has-overlay"
             else if y then "is-capturing-toolbar" else "")
            ∈ [""; "has-overlay"; "is-capturing-toolbar";
               "has-overlay is-capturing-toolbar"]) as Hcls.
  { intros [|] [|]; set_solver. }
  destruct (truthy (obj_get props "__experimentalTagName"));
    destruct (getBlockType env (name b)) as [bt|];
    try destruct (providesContext bt);
    (eexists; eexists; eexists; split; [reflexivity|]);
    (split; [reflexivity|]);
    (split; [rewrite 2!obj_get_set_ne by discriminate; apply obj_get_set_eq|]);
    (split; [rewrite obj_get_set_ne by discriminate; apply obj_get_set_eq|]);
    (split; [apply obj_get_set_eq|]);
    (split; [apply Hcls|]);
    intros k Hr Hc Hn; rewrite !obj_lookup_set_ne by congruence; reflexivity.
Qed.

Lemma blockList_receives_props_witness :
  exists e listProps,
    result (UncontrolledInnerBlocks
              [("clientId", JStr "a"); ("forwardedRef", JRef 3);
               ("orientation", JStr "horizontal")]) groupEnv = Returned e
    /\ findElement BlockList e = Some listProps
    /\ obj_get listProps "ref" = JRef 3
    /\ obj_lookup "orientation" listProps = Some (JStr "horizontal").
Proof.
  destruct (blockList_receives_props groupEnv
              [("clientId", JStr "a"); ("forwardedRef", JRef 3);
               ("orientation", JStr "horizontal")]
              {| name := "core/group"; attributes := [] |} eq_refl)
    as [e [listProps [cls [He [Hfind [Href [_ [_ [_ Hframe]]]]]]]]].
  exists e, listProps. split; [exact He|]. split; [exact Hfind|].
  split; [exact Href|]. rewrite Hframe by discriminate. reflexivity.
Defined.

(** X6: for a block the store has, the full wrapper returns a [div] of
    class ['block-editor-inner-blocks'] with one child exactly when
    [__experimentalTagName] is falsy; with a tag name there is no [div]
    anywhere in what it returns. *)
Theorem wrapper_div_unless_tag_name :
  forall env props b,
    getBlock (select env) (obj_get props "clientId") = Some b ->
    exists e,
      result (UncontrolledInnerBlocks props) env = Returned e
      /\ (elementType e = Some HostDiv <->
          truthy (obj_get props "__experimentalTagName") = false)
      /\ findElement HostDiv e
         = (if truthy (obj_get props "__experimentalTagName") then None
            else Some [("className", JStr "block-editor-inner-blocks")])
      /\ (truthy (obj_get props "__experimentalTagName") = false ->
          exists inner,
            e = JElem HostDiv [("className", JStr "block-editor-inner-blocks")]
                  [inner]
            /\ findElement HostDiv inner = None).
Proof.
  intros env props b Hb. run_render. rewrite Hb. simpl.
  destruct (truthy (obj_get props "__experimentalTagName"));
    destruct (getBlockType env (name b)) as [bt|];
    try destruct (providesContext bt);
    (eexists; split; [reflexivity|]); simpl;
    (split; [split; congruence|]); (split; [reflexivity|]);
    intros H; try discriminate H; eexists; split; reflexivity.
Qed.

Lemma wrapper_div_unless_tag_name_witness :
  exists e,
    result (UncontrolledInnerBlocks
              [("clientId", JStr "a"); ("__experimentalTagName", JStr "ul")])
      groupEnv = Returned e
    /\ findElement HostDiv e = None.
Proof.
  destruct (wrapper_div_unless_tag_name groupEnv
              [("clientId", JStr "a"); ("__experimentalTagName", JStr "ul")]
              {| name := "core/group"; attributes := [] |} eq_refl)
    as [e [He [_ [Hdiv _]]]].
  exists e. split; [exact He|exact Hdiv].
Defined.

(** X7: for a block the store has whose registered type declares a
    [providesContext] mapping, an empty one included, both components put
    exactly one [BlockContextProvider] directly around the list, with the
    bag of the block's current attributes as its value. *)
Theorem context_scope_wraps_list :
  forall env props b blockType mapping,
    getBlock (select env) (obj_get props "clientId") = Some b ->
    getBlockType env (name b) = Some blockType ->
    providesContext blockType = Some mapping ->
    let value := [("value", JObj (getBlockContext (attributes b) blockType))] in
    (exists listProps,
        result (UncontrolledInnerBlocks props) env
        = Returned
            (if truthy (obj_get props "__experimentalTagName")
             then JElem BlockContextProvider value
                    [JElem BlockList listProps []]
             else JElem HostDiv
                    [("className", JStr "block-editor-inner-blocks")]
                    [JElem BlockContextProvider value
                       [JElem BlockList listProps []]]))
    /\ result (Uncontrolled props) env
       = Returned (JElem BlockContextProvider value [blockListItemsOf props]).
Proof.
  intros env props b blockType mapping Hb Hty Hm value. split.
  - run_render. rewrite Hb. simpl. rewrite Hty, Hm.
    eexists. destruct (truthy (obj_get props "__experimentalTagName"));
      reflexivity.
  - run_render. rewrite Hb, Hty, Hm. reflexivity.
Qed.

Lemma context_scope_wraps_list_witness :
  result (Uncontrolled [("clientId", JStr "a")]) emptyMappingEnv
  = Returned
      (JElem BlockContextProvider [("value", JObj [])]
         [blockListItemsOf [("clientId", JStr "a")]]).
Proof.
  destruct (context_scope_wraps_list emptyMappingEnv [("clientId", JStr "a")]
              {| name := "core/empty"; attributes := [("x", JNum 1)] |}
              {| providesContext := Some [] |} [] eq_refl eq_refl eq_refl)
    as [_ H].
  exact H.
Defined.

(** ** Controlled and uncontrolled renders *)

Lemma UncontrolledInnerBlocks_prefix props env pre :
  UncontrolledInnerBlocks props env pre
  = (pre ++ fst (UncontrolledInnerBlocks props env []),
     snd (UncontrolledInnerBlocks props env [])).
Proof.
  destruct (getBlock (select env) (obj_get props "clientId")) as [b|] eqn:Hb.
  - run_render. rewrite Hb. simpl.
    destruct (truthy (obj_get props "__experimentalTagName")); simpl;
      rewrite <- app_assoc; reflexivity.
  - rewrite !UncontrolledInnerBlocks_absent by exact Hb. simpl.
    rewrite app_nil_r. reflexivity.
Qed.

Lemma Uncontrolled_prefix props env pre :
  Uncontrolled props env pre
  = (pre ++ fst (Uncontrolled props env []), snd (Uncontrolled props env [])).
Proof.
  run_render. rewrite <- app_assoc.
  destruct (getBlock (select env) (obj_get props "clientId")) as [b|];
    [destruct (getBlockType env (name b)) as [bt|];
     [destruct (providesContext bt)|]|]; reflexivity.
Qed.

(** X8: [ControlledInnerBlocks] returns, or throws, exactly what the full
    wrapper does for the same props; the only difference is the block
    synchronisation, called with the same props before every other
    hook. *)
Theorem controlled_renders_as_uncontrolled :
  forall env props,
    result (render (JElem ControlledInnerBlocksC props [])) env
    = result (render (JElem UncontrolledInnerBlocksC props [])) env
    /\ hooks (render (JElem ControlledInnerBlocksC props [])) env
       = BlockSyncCall props
         :: hooks (render (JElem UncontrolledInnerBlocksC props [])) env.
Proof.
  intros env props. unfold result, hooks, run.
  rewrite render_UncontrolledInnerBlocks. unfold render.
  rewrite mount_ControlledInnerBlocks, UncontrolledInnerBlocks_prefix.
  split; reflexivity.
Qed.

Lemma Uncontrolled_lists props env log :
  exists e,
    Uncontrolled props env log
    = (log ++ [NestedSettingsUpdateCall (obj_get props "clientId")
                 (obj_get props "allowedBlocks")
                 (obj_get props "templateLock")
                 (obj_get props "__experimentalCaptureToolbars")
                 (obj_get props "orientation");
               InnerBlockTemplateSyncCall (obj_get props "clientId")
                 (obj_get props "template")
                 (obj_get props "templateLock")
                 (obj_get props "templateInsertUpdatesSelection")],
       Returned e)
    /\ findElement BlockListItems e
       = Some [("rootClientId", obj_get props "clientId");
               ("renderAppender", obj_get props "renderAppender");
               ("__experimentalAppenderTagName",
                obj_get props "__experimentalAppenderTagName");
               ("wrapperRef", obj_get props "wrapperRef")]
    /\ findElement BlockList e = None
    /\ findElement HostDiv e = None
    /\ contextScopes e <= 1.
Proof.
  run_render. rewrite <- app_assoc. simpl.
  destruct (getBlock (select env) (obj_get props "clientId")) as [b|];
    [destruct (getBlockType env (name b)) as [bt|];
     [destruct (providesContext bt)|]|];
    (eexists; split; [reflexivity|]); simpl; repeat split; lia.
Qed.

Lemma UncontrolledInnerBlocks_lists props env b log :
  getBlock (select env) (obj_get props "clientId") = Some b ->
  exists e,
    snd (UncontrolledInnerBlocks props env log) = Returned e
    /\ is_Some (findElement BlockList e)
    /\ findElement BlockListItems e = None.
Proof.
  intros Hb. run_render. rewrite Hb. simpl.
  destruct (truthy (obj_get props "__experimentalTagName"));
    destruct (getBlockType env (name b)) as [bt|];
    try destruct (providesContext bt);
    (eexists; split; [reflexivity|]); simpl; split; eauto.
Qed.

(** X12: whatever the store holds, [Uncontrolled] returns: it calls its
    two hooks and renders one [BlockListItems] with the root id, the
    appender settings and the wrapper ref of its props, under at most one
    context scope, and never a [div] or a [BlockList]. *)
Theorem uncontrolled_renders_bare_items :
  forall env props,
    exists e,
      run (render (JElem UncontrolledC props [])) env
      = ([NestedSettingsUpdateCall (obj_get props "clientId")
            (obj_get props "allowedBlocks") (obj_get props "templateLock")
            (obj_get props "__experimentalCaptureToolbars")
            (obj_get props "orientation");
          InnerBlockTemplateSyncCall (obj_get props "clientId")
            (obj_get props "template") (obj_get props "templateLock")
            (obj_get props "templateInsertUpdatesSelection")],
         Returned e)
      /\ findElement BlockListItems e
         = Some [("rootClientId", obj_get props "clientId");
                 ("renderAppender", obj_get props "renderAppender");
                 ("__experimentalAppenderTagName",
                  obj_get props "__experimentalAppenderTagName");
                 ("wrapperRef", obj_get props "wrapperRef")]
      /\ findElement BlockList e = None
      /\ findElement HostDiv e = None
      /\ contextScopes e <= 1.
Proof.
  intros env props. unfold run. rewrite render_Uncontrolled.
  destruct (Uncontrolled_lists props env []) as [e [Hrun He]].
  exists e. split; [exact Hrun|exact He].
Qed.

(** X14: for a block the store has, [InnerBlocks] renders a [BlockList]
    and no [BlockListItems] in controlled mode, and a [BlockListItems]
    that carries [wrapperRef], and no [BlockList], in uncontrolled
    mode. *)
Theorem innerBlocks_list_component_by_mode :
  forall env props b,
    getBlock (select env) (JStr (contextClientId env)) = Some b ->
    exists e,
      result (render (JElem InnerBlocksC props [])) env = Returned e
      /\ (controlledInputs props = true ->
          is_Some (findElement BlockList e)
          /\ findElement BlockListItems e = None)
      /\ (controlledInputs props = false ->
          findElement BlockList e = None
          /\ exists items,
               findElement BlockListItems e = Some items
               /\ obj_get items "wrapperRef" = obj_get props "wrapperRef"
               /\ obj_get items "rootClientId" = JStr (contextClientId env)).
Proof.
  intros env props b Hb. unfold result, run. rewrite render_InnerBlocks.
  cbv zeta. destruct (controlledInputs props).
  - destruct (UncontrolledInnerBlocks_lists
                (obj_set "clientId" (JStr (contextClientId env)) props) env b
                ([] ++ [BlockSyncCall
                          (obj_set "clientId" (JStr (contextClientId env))
                             props)]))
      as [e [He Hlist]].
    { rewrite obj_get_set_eq. exact Hb. }
    exists e. split; [exact He|]. split; [intros _; exact Hlist|discriminate].
  - destruct (Uncontrolled_lists
                (obj_set "clientId" (JStr (contextClientId env)) props) env [])
      as [e [Hrun [Hitems [Hlist _]]]].
    exists e. rewrite Hrun. split; [reflexivity|]. split; [discriminate|].
    intros _. split; [exact Hlist|]. eexists. split; [exact Hitems|].
    split.
    + unfold obj_get at 1. simpl.
      rewrite obj_get_set_ne by discriminate. reflexivity.
    + unfold obj_get at 1. simpl. apply obj_get_set_eq.
Qed.

Lemma innerBlocks_list_component_by_mode_witness :
  exists e,
    result (render (JElem InnerBlocksC
                      [("value", JArr []); ("onChange", JFun 1)] []))
      groupEnv = Returned e
    /\ is_Some (findElement BlockList e)
    /\ findElement BlockListItems e = None.
Proof.
  destruct (innerBlocks_list_component_by_mode groupEnv
              [("value", JArr []); ("onChange", JFun 1)]
              {| name := "core/group"; attributes := [] |} eq_refl)
    as [e [He [Hcontrolled _]]].
  exists e. split; [exact He|]. apply Hcontrolled. reflexivity.
Defined.

(** X13: the block synchronisation is called once in a render of the
    default export or of [InnerBlocks] when [value] and [onChange] are
    both truthy, and not at all otherwise. *)
Theorem block_sync_once_iff_controlled :
  forall env props ref,
    length (List.filter isBlockSyncCall
              (hooks (renderForwardedInnerBlocks props ref) env))
    = (if controlledInputs props then 1 else 0)
    /\ length (List.filter isBlockSyncCall
                 (hooks (render (JElem InnerBlocksC props [])) env))
       = (if controlledInputs props then 1 else 0).
Proof.
  intros env props ref. unfold hooks, run.
  rewrite renderForwardedInnerBlocks_unfold, render_InnerBlocks. cbv zeta.
  assert (forall p pre,
            length (List.filter isBlockSyncCall
                      (fst (UncontrolledInnerBlocks p env pre)))
            = length (List.filter isBlockSyncCall pre)) as Hfull.
  { intros p pre.
    destruct (UncontrolledInnerBlocks_hooks p env pre)
      as [->|[c [a [l [ct [o [t [u ->]]]]]]]]; [reflexivity|].
    rewrite List.filter_app, length_app. simpl. lia. }
  assert (forall p pre,
            length (List.filter isBlockSyncCall (fst (Uncontrolled p env pre)))
            = length (List.filter isBlockSyncCall pre)) as Hbare.
  { intros p pre.
    destruct (Uncontrolled_hooks p env pre)
      as [c [a [l [ct [o [t [u ->]]]]]]].
    rewrite List.filter_app, length_app. simpl. lia. }
  destruct (controlledInputs props); rewrite ?Hfull, ?Hbare; split; reflexivity.
Qed.

(** ** The props-merging entry point, continued *)

Lemma classes_of_falsy v : truthy v = false -> classes_of v = [].
Proof.
  intros H. destruct v; simpl in *; try reflexivity; try discriminate H;
    rewrite H; reflexivity.
Qed.

Lemma controlledInputs_set k v o :
  k <> "value" -> k <> "onChange" ->
  controlledInputs (obj_set k v o) = controlledInputs o.
Proof.
  intros Hv Hc. unfold controlledInputs.
  rewrite !obj_get_set_ne by assumption. reflexivity.
Qed.

(** X9: [useInnerBlocksProps] calls none of the side-effect hooks and
    returns for every store; the [children] it returns is an [InnerBlocks]
    element that gets the options unchanged and, as [wrapperRef], the very
    ref that is returned as [ref]. *)
Theorem useInnerBlocksProps_child :
  forall env props options,
    hooks (useInnerBlocksProps props options) env = []
    /\ exists out childProps,
         result (useInnerBlocksProps props options) env = Returned out
         /\ obj_get out "children" = JElem InnerBlocksC childProps []
         /\ obj_get childProps "wrapperRef" = obj_get out "ref"
         /\ (forall k, k <> "wrapperRef" ->
                       obj_lookup k childProps = obj_lookup k options).
Proof.
  intros env props options.
  unfold hooks, result, run, useInnerBlocksProps, useRef, useBlockEditContext,
    useViewportMatch_medium_lt, useSelect, selectHasOverlay, bind, ask, ret.
  cbv zeta. split; [reflexivity|]. simpl snd.
  eexists. eexists. split; [reflexivity|]. split; [apply obj_get_set_eq|].
  split.
  - rewrite obj_get_set_eq.
    rewrite 2!obj_get_set_ne by discriminate. rewrite obj_get_set_eq.
    reflexivity.
  - intros k Hk. apply obj_lookup_set_ne. congruence.
Qed.

(** X10: when the caller passes no class name, the [className] that
    [useInnerBlocksProps] returns has the layout class, and has
    [has-overlay] exactly when the block of the context is not a
    ['core/template'] block, is not selected, has no selected block inside
    and navigation mode is on or the viewport is below the medium
    breakpoint. *)
Theorem useInnerBlocksProps_overlay_class :
  forall env props options,
    truthy (obj_get props "className") = false ->
    exists out,
      result (useInnerBlocksProps props options) env = Returned out
      /\ hasClass "block-editor-block-list__layout" (obj_get out "className")
         = true
      /\ (hasClass "has-overlay" (obj_get out "className") = true <->
          (getBlockName (select env) (JStr (contextClientId env))
             <> Some "core/template"
           /\ isBlockSelected (select env) (JStr (contextClientId env)) = false
           /\ hasSelectedInnerBlock (select env)
                (JStr (contextClientId env)) true = false)
          /\ (isNavigationMode (select env) = true
              \/ isSmallScreen env = true)).
Proof.
  intros env props options Hcls.
  unfold result, run, useInnerBlocksProps, useRef, useBlockEditContext,
    useViewportMatch_medium_lt, useSelect, selectHasOverlay, bind, ask, ret.
  cbv zeta. simpl snd. eexists. split; [reflexivity|].
  rewrite obj_get_set_ne by discriminate. rewrite obj_get_set_eq.
  unfold classnames. cbn [flat_map]. rewrite (classes_of_falsy _ Hcls).
  set (overlay :=
         negb (bool_decide
                 (getBlockName (select env) (JStr (contextClientId env))
                  = Some "core/template"))
         && negb (isBlockSelected (select env) (JStr (contextClientId env)))
         && negb (hasSelectedInnerBlock (select env)
                    (JStr (contextClientId env)) true)
         && (isNavigationMode (select env) || isSmallScreen env)).
  assert (overlay = true <->
          (getBlockName (select env) (JStr (contextClientId env))
             <> Some "core/template"
           /\ isBlockSelected (select env) (JStr (contextClientId env)) = false
           /\ hasSelectedInnerBlock (select env)
                (JStr (contextClientId env)) true = false)
          /\ (isNavigationMode (select env) = true
              \/ isSmallScreen env = true)) as Hoverlay.
  { unfold overlay.
    rewrite !andb_true_iff, !negb_true_iff, orb_true_iff,
      bool_decide_eq_false. tauto. }
  rewrite <- Hoverlay.
  destruct overlay; split; try reflexivity; vm_compute; intuition congruence.
Qed.

Lemma useInnerBlocksProps_overlay_class_witness :
  exists out,
    result (useInnerBlocksProps [("id", JStr "x")] []) smallScreenEnv
      = Returned out
    /\ hasClass "has-overlay" (obj_get out "className") = true.
Proof.
  destruct (useInnerBlocksProps_overlay_class smallScreenEnv
              [("id", JStr "x")] [] eq_refl) as [out [Hout [_ Hoverlay]]].
  exists out. split; [exact Hout|]. apply Hoverlay.
  split; [|right; reflexivity].
  split; [discriminate|]. split; reflexivity.
Defined.

Lemma useInnerBlocksProps_child_shape env props options :
  exists out,
    result (useInnerBlocksProps props options) env = Returned out
    /\ obj_get out "children"
       = JElem InnerBlocksC
           (obj_set "wrapperRef" (obj_get out "ref") options) []
    /\ obj_get out "ref"
       = js_or (obj_get props "ref") (JRef (fallbackRef env)).
Proof.
  unfold result, run, useInnerBlocksProps, useRef, useBlockEditContext,
    useViewportMatch_medium_lt, useSelect, selectHasOverlay, bind, ask, ret.
  cbv zeta. simpl snd. eexists. split; [reflexivity|].
  rewrite obj_get_set_eq.
  rewrite 2!obj_get_set_ne by discriminate. rewrite obj_get_set_eq.
  split; reflexivity.
Qed.

(** X11: rendering the [children] that [useInnerBlocksProps] returns, for
    options that are not controlled, gives a [BlockListItems] whose
    [wrapperRef] is the returned [ref] and whose root id is the client id
    of the block edit context, with no [BlockList] and no [div]. *)
Theorem useInnerBlocksProps_child_renders_items :
  forall env props options,
    controlledInputs options = false ->
    exists out e items,
      result (useInnerBlocksProps props options) env = Returned out
      /\ result (render (obj_get out "children")) env = Returned e
      /\ findElement BlockListItems e = Some items
      /\ obj_get items "wrapperRef" = obj_get out "ref"
      /\ obj_get items "rootClientId" = JStr (contextClientId env)
      /\ findElement BlockList e = None
      /\ findElement HostDiv e = None.
Proof.
  intros env props options Hmode.
  destruct (useInnerBlocksProps_child_shape env props options)
    as [out [Hout [Hchild Href]]].
  destruct (Uncontrolled_lists
              (obj_set "clientId" (JStr (contextClientId env))
                 (obj_set "wrapperRef" (obj_get out "ref") options)) env [])
    as [e [Hrun [Hitems [Hlist [Hdiv _]]]]].
  exists out, e. eexists. split; [exact Hout|].
  split.
  { rewrite Hchild. unfold result, run. rewrite render_InnerBlocks. cbv zeta.
    rewrite controlledInputs_set, Hmode by discriminate.
    rewrite Hrun. reflexivity. }
  split; [exact Hitems|]. split; [|split; [|split; assumption]].
  - unfold obj_get at 1. simpl.
    rewrite obj_get_set_ne by discriminate. apply obj_get_set_eq.
  - unfold obj_get at 1. simpl. apply obj_get_set_eq.
Qed.

Lemma useInnerBlocksProps_child_renders_items_witness :
  exists out e items,
    result (useInnerBlocksProps [("ref", JRef 4)] [("template", JArr [])])
      groupEnv = Returned out
    /\ result (render (obj_get out "children")) groupEnv = Returned e
    /\ findElement BlockListItems e = Some items
    /\ obj_get items "wrapperRef" = JRef 4.
Proof.
  destruct (useInnerBlocksProps_child_renders_items groupEnv
              [("ref", JRef 4)] [("template", JArr [])] eq_refl)
    as [out [e [items [Hout [He [Hitems [Href _]]]]]]].
  exists out, e, items. split; [exact Hout|]. split; [exact He|].
  split; [exact Hitems|]. rewrite Href.
  vm_compute in Hout. injection Hout as <-. reflexivity.
Defined.
